(** * Map widget core: polygon area, area formatting, duplicate detection,
      and the drawn-feature registry

    Shallow embedding of [utils/mapUtils.ts] and of the event handlers of
    [components/map-with-drawing.tsx].

    JavaScript numbers are IEEE-754 binary64 values; they are modelled by
    Rocq's primitive [float]s, whose operations round exactly as the host
    does.  The geometry code is written once against the small arithmetic
    signature [Arith] and is run on the [float] instance; the instance over
    the real numbers is the exact-arithmetic reading of the same code. *)

From Stdlib Require Import ZArith List String Ascii Floats Reals Lra Lia.
From Stdlib Require Import QArith_base Qreals DecimalString.
From stdpp Require Import base option list gmap sets.

Set Default Proof Using "Type".
Set Warnings "-inexact-float,-register-all".

(* ------------------------------------------------------------------ *)
(** ** Arithmetic signature *)

(** The operations on numbers that the geometry code uses.  [lit] reads a
    literal written [p/q] in the source ([6378137], [180], [0.000001]). *)
Class Arith (num : Type) := {
  lit : Q -> num;
  nadd : num -> num -> num;
  nsub : num -> num -> num;
  nmul : num -> num -> num;
  ndiv : num -> num -> num;
  Math_abs : num -> num;
  Math_PI : num;
  nltb : num -> num -> bool
}.
Arguments lit {num _} _%_Q.

Declare Scope num_scope.
Delimit Scope num_scope with num.
Notation "x + y" := (nadd x y) : num_scope.
Notation "x - y" := (nsub x y) : num_scope.
Notation "x * y" := (nmul x y) : num_scope.
Notation "x / y" := (ndiv x y) : num_scope.
Notation "x <? y" := (nltb x y) : num_scope.

(** [{ lat, lng }], in degrees (or in radians after [toRad]). *)
Record LatLng (num : Type) := mkLatLng { lat : num; lng : num }.
Arguments mkLatLng {num} _ _.
Arguments lat {num} _.
Arguments lng {num} _.

Section Geometry.
Context {num : Type} `{A : Arith num}.
Local Open Scope num_scope.

(** [Math.sin].  The language standard fixes it at a few special values
    and leaves the rest to the host, so it is a parameter of the code
    that calls it. *)
Variable Math_sin : num -> num.

Definition zero : num := lit 0.
Definition two : num := lit 2.

(** [const EARTH_RADIUS = 6378137] *)
Definition EARTH_RADIUS : num := lit 6378137.

(** [const toRad = (deg) => (deg * Math.PI) / 180] *)
Definition toRad (deg : num) : num := (deg * Math_PI) / lit 180.

Definition toRadPoint (ll : LatLng num) : LatLng num :=
  {| lat := toRad (lat ll); lng := toRad (lng ll) |}.

(** Array indexing [points[i]].  The loop of [calculateArea] only uses
    indices below [points.length], so the default is never read. *)
Definition origin : LatLng num := {| lat := zero; lng := zero |}.
Definition at_index (points : list (LatLng num)) (i : nat) : LatLng num :=
  nth i points origin.

(** One pass of the loop body:
    [area += (p2.lng - p1.lng) * (2 + Math.sin(p1.lat) + Math.sin(p2.lat))] *)
Definition excess_term (p1 p2 : LatLng num) : num :=
  (lng p2 - lng p1) * (two + Math_sin (lat p1) + Math_sin (lat p2)).

Definition area_step (points : list (LatLng num)) (area : num) (i : nat) : num :=
  let p1 := at_index points i in
  let p2 := at_index points ((i + 1) mod length points) in
  area + excess_term p1 p2.

(** [calculateArea] of [mapUtils.ts]; the component carries a verbatim
    copy of it. *)
Definition calculateArea (latlngs : list (LatLng num)) : num :=
  if (length latlngs <? 3)%nat then zero
  else
    let points := map toRadPoint latlngs in
    let area := fold_left (area_step points) (seq 0 (length points)) zero in
    Math_abs ((area * EARTH_RADIUS * EARTH_RADIUS) / two).

(** Default value of the parameter [tolerance = 0.000001]. *)
Definition default_tolerance : num := lit (1 # 1000000).

(** Callback of [coords1.every((coord, index) => ...)].  [coords2[index]]
    is defined whenever the lengths agree, which the caller has checked. *)
Definition coord_match (coords2 : list (LatLng num)) (tolerance : num)
    (index : nat) (coord : LatLng num) : bool :=
  match coords2 !! index with
  | Some otherCoord =>
      let latMatch := Math_abs (lat coord - lat otherCoord) <? tolerance in
      let lngMatch := Math_abs (lng coord - lng otherCoord) <? tolerance in
      latMatch && lngMatch
  | None => false
  end.

(** [Array.prototype.every] with the index passed to the callback. *)
Fixpoint every_from {T : Type} (f : nat -> T -> bool) (i : nat) (l : list T) : bool :=
  match l with
  | [] => true
  | x :: l' => if f i x then every_from f (S i) l' else false
  end.

(** [areCoordinatesEqual(coords1, coords2, tolerance = 0.000001)]; an
    omitted third argument is [None]. *)
Definition areCoordinatesEqual (coords1 coords2 : list (LatLng num))
    (tolerance : option num) : bool :=
  let tolerance := default default_tolerance tolerance in
  if negb (length coords1 =? length coords2)%nat then false
  else every_from (coord_match coords2 tolerance) 0 coords1.
End Geometry.

(* ------------------------------------------------------------------ *)
(** ** The two instances *)

(** An integer literal as a binary64 value (exact below [2^53]). *)
Definition float_of_Z (z : Z) : float :=
  if (z <? 0)%Z then PrimFloat.opp (PrimFloat.of_uint63 (Uint63.of_Z (- z)))
  else PrimFloat.of_uint63 (Uint63.of_Z z).

(** IEEE-754 binary64 arithmetic, as the host evaluates the code.  A decimal
    literal denotes the nearest binary64 value, which is what the correctly
    rounded quotient of its numerator and denominator gives.  [Math.PI] is
    the binary64 value nearest to pi, [3.141592653589793]. *)
#[export] Instance float_arith : Arith float := {|
  lit q := PrimFloat.div (float_of_Z (Qnum q)) (float_of_Z (Zpos (Qden q)));
  nadd := PrimFloat.add;
  nsub := PrimFloat.sub;
  nmul := PrimFloat.mul;
  ndiv := PrimFloat.div;
  Math_abs := PrimFloat.abs;
  Math_PI := 0x1.921fb54442d18p+1%float;
  nltb := PrimFloat.ltb
|}.

(** Exact arithmetic on the real numbers. *)
#[export] Instance real_arith : Arith R := {|
  lit := Q2R;
  nadd := Rplus;
  nsub := Rminus;
  nmul := Rmult;
  ndiv := Rdiv;
  Math_abs := Rabs;
  Math_PI := PI;
  nltb x y := if Rlt_dec x y then true else false
|}.

(** A point as the source writes it, [{ lat: a, lng: b }]. *)
Definition pt (a b : float) : LatLng float := mkLatLng a b.

(* ------------------------------------------------------------------ *)
(** ** A reference [Math.sin] for running examples

    [Math.sin] is a built-in whose precision the language standard leaves
    to the host.  Every theorem below holds for any host sine.  To evaluate the code on
    concrete rings a sine is needed; this one follows the usual scheme of
    the freely distributable math library: reduce the argument by multiples
    of pi/2, then evaluate a kernel polynomial for sine or cosine.  It has
    the special values the language standard requires: it maps [+0] and
    [-0] to themselves and [NaN] and the infinities to [NaN]. *)
Section ReferenceSine.
Local Open Scope float_scope.

Definition kernel_sin (x : float) : float :=
  let z := x * x in
  let v := z * x in
  let r := 8.33333333332248946124e-03
           + z * (-1.98412698298579493134e-04
           + z * (2.75573137070700676789e-06
           + z * (-2.50507602534068634195e-08
           + z * 1.58969099521155010221e-10))) in
  x + v * (-1.66666666666666324348e-01 + z * r).

Definition kernel_cos (x : float) : float :=
  let z := x * x in
  let r := z * (4.16666666666666019037e-02
           + z * (-1.38888888888741095749e-03
           + z * (2.48015872894767294178e-05
           + z * (-2.75573143513906633035e-07
           + z * (2.08757232129817482790e-09
           + z * -1.13596475577881948265e-11))))) in
  1 - (0.5 * z - z * r).

(** Nearest integer, for arguments of moderate size. *)
Definition round_int (x : float) : float :=
  (x + 6755399441055744) - 6755399441055744.

Definition sin_ref (x : float) : float :=
  if orb (negb (x =? x)) (abs x =? infinity) then nan
  else if abs x <? 0x1p-27 then x
  else
    let n := round_int (x * 6.36619772367581382433e-01) in
    let y := (x - n * 1.57079632673412561417e+00)
             - n * 6.07710050650619224932e-11 in
    let q := n - 4 * round_int (n / 4) in
    if q =? 0 then kernel_sin y
    else if q =? 1 then kernel_cos y
    else if q =? -1 then - kernel_cos y
    else - kernel_sin y.
End ReferenceSine.

(* ------------------------------------------------------------------ *)
(** ** Unit formatter *)

Section Formatting.
Local Open Scope float_scope.

(** [sqMetersToHectares] and [sqMetersToSqKm]. *)
Definition sqMetersToHectares (sqMeters : float) : float := sqMeters / 10000.
Definition sqMetersToSqKm (sqMeters : float) : float := sqMeters / 1000000.

(** *** [Number.prototype.toFixed]

    A built-in of the language, not code of the repository; the language
    standard defines its result exactly.  For a finite [x]
    below [10^21] in magnitude it takes the integer [n] for which
    [n / 10^f - x] is as close to zero as possible, the larger one on a
    tie, and prints the digits of [n] with a point before the last [f].
    The value of a finite binary64 number is [m * 2^e] exactly. *)

Definition scaled_nearest (m : positive) (e : Z) (f : nat) : N :=
  let num := (Zpos m * 10 ^ Z.of_nat f)%Z in
  if (0 <=? e)%Z then Z.to_N (num * 2 ^ e)
  else Z.to_N ((2 * num + 2 ^ (- e)) / 2 ^ (- e + 1)).

Definition digits_of (n : N) : string := NilZero.string_of_uint (N.to_uint n).

Fixpoint zeros (k : nat) : string :=
  match k with O => EmptyString | S k' => String "0" (zeros k') end.

Definition fixed_point (n : N) (f : nat) : string :=
  let m := digits_of n in
  let k := String.length m in
  if (f =? 0)%nat then m
  else
    let m := if (k <=? f)%nat then String.append (zeros (f + 1 - k)) m else m in
    let k := String.length m in
    String.append (substring 0 (k - f) m)
      (String.append "." (substring (k - f) f m)).

Definition sign_prefix (s : bool) : string := if s then "-"%string else EmptyString.

(** [Number::toString] is only reached for magnitudes of [10^21] and
    more, where the result is in exponent notation; it is a parameter. *)
Variable Number_toString : float -> string.

Definition toFixed (x : float) (f : nat) : string :=
  match Prim2SF x with
  | S754_nan => "NaN"%string
  | S754_infinity s => String.append (sign_prefix s) "Infinity"
  | S754_zero _ => fixed_point 0 f
  | S754_finite s m e =>
      if 1e21 <=? abs x
      then String.append (sign_prefix s) (Number_toString (abs x))
      else String.append (sign_prefix s) (fixed_point (scaled_nearest m e f) f)
  end.

(** [formatArea]; the template literals append the unit after a space. *)
Definition formatArea (sqMeters : float) : string :=
  if sqMeters <? 10000 then
    String.append (toFixed sqMeters 2) " m²"
  else if sqMeters <? 1000000 then
    String.append (toFixed (sqMetersToHectares sqMeters) 4) " hectares"
  else
    String.append (toFixed (sqMetersToSqKm sqMeters) 2) " km²".
End Formatting.

(* ------------------------------------------------------------------ *)
(** ** Drawn features and the drawing surface *)

(** [DrawnFeature["type"]] and [DrawnFeature["layerType"]]. *)
Inductive FeatureType := polygon | polyline | marker | rectangle.
Inductive LayerType := workArea | record.

(** [DrawMode], without [null]: the state holds an [option DrawMode]. *)
Inductive DrawMode := drawWorkArea | drawRecord | drawEdit.

(** A layer of the mapping library is an object with identity; features
    hold a reference to it and the editing plugin changes its geometry in
    place.  References are the keys of a store of layer objects. *)
Definition LayerRef := nat.

(** The layer classes that the handlers tell apart with [instanceof].  In
    the mapping library [Rectangle] extends [Polygon], which extends
    [Polyline].  A polygon always has an outer ring, [getLatLngs()[0]]; its
    further rings are holes. *)
Inductive LayerClass := CPolygon | CPolyline | CMarker | CRectangle.

Inductive LayerObject :=
  | LPolygon (outer : list (LatLng float)) (holes : list (list (LatLng float)))
  | LRectangle (outer : list (LatLng float)) (holes : list (list (LatLng float)))
  | LPolyline (latlngs : list (LatLng float))
  | LMarker (latlng : LatLng float)
  | LOther.

Definition instanceof (o : LayerObject) (c : LayerClass) : bool :=
  match o, c with
  | LRectangle _ _, (CRectangle | CPolygon | CPolyline) => true
  | LPolygon _ _, (CPolygon | CPolyline) => true
  | LPolyline _, CPolyline => true
  | LMarker _, CMarker => true
  | _, _ => false
  end.

(** [layer.getLatLngs()[0]] of a polygon or rectangle. *)
Definition getLatLngs_0 (o : LayerObject) : list (LatLng float) :=
  match o with
  | LPolygon outer _ | LRectangle outer _ => outer
  | _ => []
  end.

(** [layer.getLatLngs()] of a line. *)
Definition getLatLngs (o : LayerObject) : list (LatLng float) :=
  match o with
  | LPolyline latlngs => latlngs
  | _ => []
  end.

(** [layer.getLatLng()] of a marker, as the one-element array the handlers
    build from it. *)
Definition getLatLng_array (o : LayerObject) : list (LatLng float) :=
  match o with
  | LMarker latlng => [latlng]
  | _ => []
  end.

Record DrawnFeature := mkFeature {
  id : string;
  type : FeatureType;
  area : option float;
  coordinates : list (LatLng float);
  layer : LayerRef;
  layerType : LayerType
}.

(** What the handlers read and write: the component state
    ([drawnFeatures], [selectedFeatureId], [drawMode]), the layer objects,
    the layers shown on the map, the members of the two layer groups, the
    click handlers put on layers, and the calls made to [onPolygonChange]
    (oldest first). *)
Record MapState := mkState {
  drawnFeatures : list DrawnFeature;
  selectedFeatureId : option string;
  drawMode : option DrawMode;
  layerObjects : gmap LayerRef LayerObject;
  onMap : gset LayerRef;
  workAreaLayer : gset LayerRef;
  recordLayer : gset LayerRef;
  clickSelects : list (LayerRef * string);
  polygonChanges : list (list (LatLng float) * option float)
}.

(** The event of the drawing plugin: [e] itself and [e.layer] may be
    missing. *)
Record PmEvent := mkEvent { ev_layer : option LayerRef }.

(** [latlngs.map((ll) => ({ lat: ll.lat, lng: ll.lng }))] *)
Definition plain_coordinates (latlngs : list (LatLng float)) : list (LatLng float) :=
  map (fun ll => {| lat := lat ll; lng := lng ll |}) latlngs.

(** [isDuplicateFeature]: [existingFeatures.some(...)], with the tolerance
    argument of [areCoordinatesEqual] left out. *)
Definition isDuplicateFeature (newCoordinates : list (LatLng float))
    (existingFeatures : list DrawnFeature) : bool :=
  existsb (fun feature => areCoordinatesEqual (coordinates feature) newCoordinates None)
    existingFeatures.

(** The handlers of the drawing events are closures.  The effect that
    subscribes them runs after a render of the component and lists
    [drawnFeatures] and [drawMode] among its dependencies; the handlers it
    makes hold the values that these two had in that render, and stay
    subscribed until a later render, with another registry or draw mode,
    has had its effect run.  The layer groups and the map are reached
    through references and are always the current ones. *)
Record Closure := mkClosure {
  closure_drawnFeatures : list DrawnFeature;
  closure_drawMode : option DrawMode
}.

(** The closure of the handlers that the render of a state subscribes. *)
Definition render (st : MapState) : Closure :=
  mkClosure (drawnFeatures st) (drawMode st).

Section Handlers.
Variable Math_sin : float -> float.

(** [layer.on("click", () => setSelectedFeatureId(id))] *)
Definition on_click (l : LayerRef) (i : string) (st : MapState) : MapState :=
  mkState (drawnFeatures st) (selectedFeatureId st) (drawMode st) (layerObjects st)
    (onMap st) (workAreaLayer st) (recordLayer st)
    (clickSelects st ++ [(l, i)]) (polygonChanges st).

(** [map.removeLayer(layer)] *)
Definition map_removeLayer (l : LayerRef) (st : MapState) : MapState :=
  mkState (drawnFeatures st) (selectedFeatureId st) (drawMode st) (layerObjects st)
    (onMap st ∖ {[ l ]}) (workAreaLayer st) (recordLayer st)
    (clickSelects st) (polygonChanges st).

(** [targetLayer.addLayer(layer)]: both groups are on the map, so the
    layer is shown as well. *)
Definition targetLayer_addLayer (t : LayerType) (l : LayerRef) (st : MapState) : MapState :=
  mkState (drawnFeatures st) (selectedFeatureId st) (drawMode st) (layerObjects st)
    (onMap st ∪ {[ l ]})
    (match t with workArea => workAreaLayer st ∪ {[ l ]} | record => workAreaLayer st end)
    (match t with record => recordLayer st ∪ {[ l ]} | workArea => recordLayer st end)
    (clickSelects st) (polygonChanges st).

(** [onPolygonChange?.(coordinates, area)] *)
Definition onPolygonChange (c : list (LatLng float)) (a : option float)
    (st : MapState) : MapState :=
  mkState (drawnFeatures st) (selectedFeatureId st) (drawMode st) (layerObjects st)
    (onMap st) (workAreaLayer st) (recordLayer st)
    (clickSelects st) (polygonChanges st ++ [(c, a)]).

(** [setDrawnFeatures((prev) => f(prev))] and [setSelectedFeatureId]. *)
Definition setDrawnFeatures (f : list DrawnFeature -> list DrawnFeature)
    (st : MapState) : MapState :=
  mkState (f (drawnFeatures st)) (selectedFeatureId st) (drawMode st) (layerObjects st)
    (onMap st) (workAreaLayer st) (recordLayer st)
    (clickSelects st) (polygonChanges st).

Definition setSelectedFeatureId (s : option string) (st : MapState) : MapState :=
  mkState (drawnFeatures st) s (drawMode st) (layerObjects st)
    (onMap st) (workAreaLayer st) (recordLayer st)
    (clickSelects st) (polygonChanges st).

(** The end of [handleCreate], reached with [featureData] set. *)
Definition register (featureData : DrawnFeature) (st : MapState) : MapState :=
  setSelectedFeatureId (Some (id featureData))
    (setDrawnFeatures (fun prev => prev ++ [featureData]) st).

(** [handleCreate].  The fresh [id] is made from the clock and a random
    number and is an input here.  The duplicate test reads [drawnFeatures]
    and the target layer reads [drawMode], both from the closure [c] of
    the handler; the new entry is appended to the registry that the state
    holds when the update runs ([setDrawnFeatures((prev) => ...)]). *)
Definition handleCreate (c : Closure) (id : string) (e : option PmEvent)
    (st : MapState) : MapState :=
  match e with
  | None => st
  | Some ev =>
    match ev_layer ev with
    | None => st
    | Some layer =>
      let o := default LOther (layerObjects st !! layer) in
      let drawMode := closure_drawMode c in
      let drawnFeatures := closure_drawnFeatures c in
      let targetLayerType :=
        match drawMode with Some drawRecord => record | _ => workArea end in
      let st := on_click layer id st in
      if instanceof o CPolygon then
        let latlngs := getLatLngs_0 o in
        let area := calculateArea Math_sin latlngs in
        let coordinates := plain_coordinates latlngs in
        if isDuplicateFeature coordinates drawnFeatures then map_removeLayer layer st
        else
          let featureData :=
            mkFeature id polygon (Some area) coordinates layer targetLayerType in
          let st := targetLayer_addLayer targetLayerType layer st in
          let st := match targetLayerType with
                    | workArea => onPolygonChange coordinates (Some area) st
                    | record => st
                    end in
          register featureData st
      else if instanceof o CPolyline then
        let latlngs := getLatLngs o in
        let coordinates := plain_coordinates latlngs in
        if isDuplicateFeature coordinates drawnFeatures then map_removeLayer layer st
        else
          let featureData :=
            mkFeature id polyline None coordinates layer targetLayerType in
          register featureData (targetLayer_addLayer targetLayerType layer st)
      else if instanceof o CMarker then
        let coordinates := plain_coordinates (getLatLng_array o) in
        if isDuplicateFeature coordinates drawnFeatures then map_removeLayer layer st
        else
          let featureData :=
            mkFeature id marker None coordinates layer targetLayerType in
          register featureData (targetLayer_addLayer targetLayerType layer st)
      else if instanceof o CRectangle then
        let latlngs := getLatLngs_0 o in
        let area := calculateArea Math_sin latlngs in
        let coordinates := plain_coordinates latlngs in
        if isDuplicateFeature coordinates drawnFeatures then map_removeLayer layer st
        else
          let featureData :=
            mkFeature id rectangle (Some area) coordinates layer targetLayerType in
          register featureData (targetLayer_addLayer targetLayerType layer st)
      else st
    end
  end.

(** The callback of [prev.map(...)] in [handleEdit]. *)
Definition edit_feature (objects : gmap LayerRef LayerObject) (edited : LayerRef)
    (feature : DrawnFeature) : DrawnFeature :=
  if Nat.eqb (layer feature) edited then
    let o := default LOther (objects !! layer feature) in
    if instanceof o CPolygon || instanceof o CRectangle then
      let latlngs := getLatLngs_0 o in
      let area := calculateArea Math_sin latlngs in
      let coordinates := plain_coordinates latlngs in
      mkFeature (id feature) (type feature) (Some area) coordinates
        (layer feature) (layerType feature)
    else if instanceof o CPolyline then
      let coordinates := plain_coordinates (getLatLngs o) in
      mkFeature (id feature) (type feature) (area feature) coordinates
        (layer feature) (layerType feature)
    else if instanceof o CMarker then
      let coordinates := plain_coordinates (getLatLng_array o) in
      mkFeature (id feature) (type feature) (area feature) coordinates
        (layer feature) (layerType feature)
    else feature
  else feature.

(** [handleEdit] *)
Definition handleEdit (e : option PmEvent) (st : MapState) : MapState :=
  match e with
  | None => st
  | Some ev =>
    match ev_layer ev with
    | None => st
    | Some edited =>
        setDrawnFeatures (map (edit_feature (layerObjects st) edited)) st
    end
  end.

(** The editing plugin moving the vertices of a layer, before it emits
    the edit event. *)
Definition plugin_edit (l : LayerRef) (o : LayerObject) (st : MapState) : MapState :=
  mkState (drawnFeatures st) (selectedFeatureId st) (drawMode st)
    (<[ l := o ]> (layerObjects st))
    (onMap st) (workAreaLayer st) (recordLayer st)
    (clickSelects st) (polygonChanges st).

(** The drawing plugin finishing a shape: the new layer object exists and
    is shown on the map when the creation event is emitted. *)
Definition plugin_draw (l : LayerRef) (o : LayerObject) (st : MapState) : MapState :=
  mkState (drawnFeatures st) (selectedFeatureId st) (drawMode st)
    (<[ l := o ]> (layerObjects st))
    (onMap st ∪ {[ l ]}) (workAreaLayer st) (recordLayer st)
    (clickSelects st) (polygonChanges st).

(** [setDrawMode] *)
Definition setDrawMode (m : option DrawMode) (st : MapState) : MapState :=
  mkState (drawnFeatures st) (selectedFeatureId st) m (layerObjects st)
    (onMap st) (workAreaLayer st) (recordLayer st)
    (clickSelects st) (polygonChanges st).
End Handlers.

(** The state after mount: no features, nothing drawn. *)
Definition initial_state : MapState :=
  mkState [] None None ∅ ∅ ∅ ∅ [] [].

(* ------------------------------------------------------------------ *)
(** ** Export of one feature *)

(** The values that [copyFeatureGeoJSON] builds. *)
Inductive Json :=
  | JUndefined
  | JNum (x : float)
  | JStr (s : string)
  | JArr (items : list Json)
  | JObj (fields : list (string * Json)).

(** [[c.lng, c.lat]] *)
Definition lng_lat (c : LatLng float) : Json := JArr [JNum (lng c); JNum (lat c)].

(** [copyFeatureGeoJSON], up to the object handed to [JSON.stringify].
    Reading [feature.coordinates[0].lng] of a marker throws when the array
    is empty; the result is then [None]. *)
Definition copyFeatureGeoJSON (feature : DrawnFeature) : option Json :=
  let geometry_type :=
    match type feature with
    | polygon | rectangle => "Polygon"%string
    | polyline => "LineString"%string
    | marker => "Point"%string
    end in
  let geometry_coordinates :=
    match type feature with
    | marker =>
        match coordinates feature !! 0%nat with
        | Some c => Some (JArr [JNum (lng c); JNum (lat c)])
        | None => None
        end
    | polygon | rectangle => Some (JArr [JArr (map lng_lat (coordinates feature))])
    | polyline => Some (JArr (map lng_lat (coordinates feature)))
    end in
  match geometry_coordinates with
  | Some coords =>
      Some (JObj [("type"%string, JStr "Feature");
                  ("geometry"%string,
                     JObj [("type"%string, JStr geometry_type);
                           ("coordinates"%string, coords)]);
                  ("properties"%string,
                     JObj [("area"%string,
                            match area feature with
                            | Some a => JNum a
                            | None => JUndefined
                            end)])])
  | None => None
  end.

(* ------------------------------------------------------------------ *)
(** ** Reference formulas

    The closed forms that the code is compared with. *)

Section Reference.
Context {num : Type} `{A : Arith num}.
Variable Math_sin : num -> num.
Local Open Scope num_scope.

(** Every point paired with its successor, the last one with the first. *)
Definition cyclic_pairs (pts : list (LatLng num)) : list (LatLng num * LatLng num) :=
  combine pts (rotate 1 pts).

(** The sum, in ring order, of
    [(lng[i+1] - lng[i]) * (2 + sin(lat[i]) + sin(lat[i+1]))]. *)
Definition excess_sum (pts : list (LatLng num)) : num :=
  fold_left
    (fun acc pq =>
       acc + (lng (snd pq) - lng (fst pq))
             * (lit 2 + Math_sin (lat (fst pq)) + Math_sin (lat (snd pq))))
    (cyclic_pairs pts) (lit 0).

(** The two points within [t] of each other in both coordinates. *)
Definition within (t : num) (p q : LatLng num) : Prop :=
  (Math_abs (lat p - lat q) <? t) = true /\ (Math_abs (lng p - lng q) <? t) = true.
End Reference.

(** Sums of real numbers, and the excess sum of a ring written over its
    closed path (the ring followed by its first point). *)
Section RealDefs.
Local Open Scope R_scope.

Definition Rsum (l : list R) : R := fold_right Rplus 0 l.

(** Consecutive pairs of a path. *)
Definition adjacent {T : Type} (l : list T) : list (T * T) := combine l (tl l).

Definition rterm (pq : LatLng R * LatLng R) : R :=
  (lng (snd pq) - lng (fst pq)) * (2 + sin (lat (fst pq)) + sin (lat (snd pq))).

End RealDefs.

(** The area formula as the specification states it, written out on its
    own: no conversion, constant or operation of the code above is used.
    Radians are degrees times pi over 180, [S] is the sum over every point
    paired with its successor, the last point with the first, and the
    area is [abs(S * R² / 2)] with [R = 6378137]. *)
Section StatedFormula.

(** Every point with the one that follows it, the last with the first. *)
Definition with_successor {T : Type} (ring : list T) : list (T * T) :=
  match ring with
  | [] => []
  | first :: rest => combine ring (rest ++ [first])
  end.

(** On binary64 numbers: pi is [3.141592653589793], the summands are added
    in ring order starting from 0, and the products and quotients are
    taken from left to right. *)
Definition stated_radians (deg : float) : float :=
  (deg * 3.141592653589793 / 180)%float.

Definition stated_sum (Math_sin : float -> float) (ring : list (LatLng float)) : float :=
  fold_left
    (fun S pq =>
       (S + (stated_radians (lng (snd pq)) - stated_radians (lng (fst pq)))
            * (2 + Math_sin (stated_radians (lat (fst pq)))
                 + Math_sin (stated_radians (lat (snd pq)))))%float)
    (with_successor ring) 0%float.

Definition stated_area (Math_sin : float -> float) (ring : list (LatLng float)) : float :=
  PrimFloat.abs (stated_sum Math_sin ring * 6378137 * 6378137 / 2)%float.

(** On the real numbers, where rounding and grouping play no part. *)
Definition exact_radians (deg : R) : R := (deg * PI / 180)%R.

Definition exact_sum (ring : list (LatLng R)) : R :=
  Rsum (map (fun pq =>
               ((exact_radians (lng (snd pq)) - exact_radians (lng (fst pq)))
                * (2 + sin (exact_radians (lat (fst pq)))
                     + sin (exact_radians (lat (snd pq)))))%R)
            (with_successor ring)).

Definition exact_area (ring : list (LatLng R)) : R :=
  Rabs (exact_sum ring * 6378137² / 2)%R.
End StatedFormula.

(** The coordinates that [handleCreate] reads off a layer object, by the
    first class test that the object passes. *)
Definition drawn_coordinates (o : LayerObject) : list (LatLng float) :=
  if instanceof o CPolygon then plain_coordinates (getLatLngs_0 o)
  else if instanceof o CPolyline then plain_coordinates (getLatLngs o)
  else if instanceof o CMarker then plain_coordinates (getLatLng_array o)
  else [].

(** The object is of one of the four classes that [handleCreate] handles. *)
Definition drawable (o : LayerObject) : bool :=
  instanceof o CPolygon || instanceof o CPolyline || instanceof o CMarker
  || instanceof o CRectangle.

(** Every registered marker has a position to export, and its layer is a
    marker object. *)
Definition markers_positioned (st : MapState) : Prop :=
  forall f, f ∈ drawnFeatures st -> type f = marker ->
            coordinates f <> [] /\
            exists latlng, layerObjects st !! layer f = Some (LMarker latlng).

(** The creation and edit events for a layer. *)
Definition event_for (l : LayerRef) : option PmEvent := Some (mkEvent (Some l)).

(** The object that [copyFeatureGeoJSON] builds around a geometry. *)
Definition geojson_feature (geometry_type : string) (geometry_coordinates : Json)
    (a : option float) : Json :=
  JObj [("type"%string, JStr "Feature");
        ("geometry"%string,
           JObj [("type"%string, JStr geometry_type);
                 ("coordinates"%string, geometry_coordinates)]);
        ("properties"%string,
           JObj [("area"%string,
                  match a with Some x => JNum x | None => JUndefined end)])].

(* ------------------------------------------------------------------ *)
(** ** Sample data *)

Section Samples.
Local Open Scope float_scope.

(** A square of 0.001 degrees at the equator. *)
Definition small_square : list (LatLng float) :=
  [pt 0 0; pt 0 0.001; pt 0.001 0.001; pt 0.001 0].


(** A triangle with sides of about five centimetres. *)
Definition tiny_triangle : list (LatLng float) :=
  [pt 43.7 (-79.4); pt 43.7 (-79.3999995); pt 43.7000005 (-79.4)].

(** A pentagon of a few square kilometres. *)
Definition pentagon : list (LatLng float) :=
  [pt 43.7 (-79.4); pt 43.71 (-79.41); pt 43.72 (-79.4); pt 43.715 (-79.38);
   pt 43.705 (-79.385)].

(** A triangle and a second one within the tolerance of it. *)
Definition triangle : list (LatLng float) :=
  [pt 43.7 (-79.4); pt 43.71 (-79.4); pt 43.71 (-79.39)].
Definition triangle_nearby : list (LatLng float) :=
  [pt 43.7000001 (-79.4); pt 43.71 (-79.4000002); pt 43.71 (-79.39)].
Definition triangle_moved : list (LatLng float) :=
  [pt 43.7 (-79.4); pt 43.72 (-79.4); pt 43.72 (-79.38)].

(** One polygon drawn and registered in work-area mode.  Drawing a shape
    changes neither the registry nor the draw mode, so the closure of the
    render before the drawing is that of the state after it. *)
Definition work_area_mode : MapState := setDrawMode (Some drawWorkArea) initial_state.
Definition one_polygon : MapState :=
  handleCreate sin_ref (render work_area_mode) "feature-1" (event_for 1%nat)
    (plugin_draw 1%nat (LPolygon triangle []) work_area_mode).

(** A second shape drawn over it in record mode, before its creation
    event is handled. *)
Definition second_drawn : MapState :=
  plugin_draw 2%nat (LPolygon triangle_nearby [])
    (setDrawMode (Some drawRecord) one_polygon).

(** Two different polygons registered; then the second one is dragged
    onto the first. *)
Definition two_polygons : MapState :=
  handleCreate sin_ref (render one_polygon) "feature-2" (event_for 2%nat)
    (plugin_draw 2%nat (LPolygon triangle_moved []) one_polygon).
Definition second_dragged : MapState :=
  plugin_edit 2%nat (LPolygon triangle []) two_polygons.

(** A stand-in for the printing of numbers of [10^21] and more, for
    examples that stay below that. *)
Definition exponent_notation_unused (x : float) : string := EmptyString.

Definition sample_marker : DrawnFeature :=
  mkFeature "feature-3" marker None [pt 43.7 (-79.4)] 3%nat workArea.

(** The same ring drawn twice, both creation events reaching the handler
    that was subscribed at mount: the component has not rendered the first
    registration when the second event arrives. *)
Definition first_unrendered : MapState :=
  handleCreate sin_ref (render initial_state) "feature-1" (event_for 1%nat)
    (plugin_draw 1%nat (LPolygon triangle []) initial_state).
Definition second_unrendered : MapState :=
  handleCreate sin_ref (render initial_state) "feature-2" (event_for 2%nat)
    (plugin_draw 2%nat (LPolygon triangle []) first_unrendered).

(** The same in record mode with a line: the handler subscribed by the
    render of the mode change receives both events. *)
Definition record_mode : MapState := setDrawMode (Some drawRecord) initial_state.
Definition first_line_unrendered : MapState :=
  handleCreate sin_ref (render record_mode) "feature-1" (event_for 1%nat)
    (plugin_draw 1%nat (LPolyline [pt 43.7 (-79.4); pt 43.8 (-79.3)]) record_mode).
Definition second_line_unrendered : MapState :=
  handleCreate sin_ref (render record_mode) "feature-2" (event_for 2%nat)
    (plugin_draw 2%nat (LPolyline [pt 43.7 (-79.4); pt 43.8 (-79.3)])
       first_line_unrendered).
End Samples.

(* ------------------------------------------------------------------ *)
(** ** The other handlers of the registry *)

(** [layer.clearLayers()] on one of the two groups.  Both groups are on
    the map, so every member is taken off the map as well. *)
Definition clearLayers (t : LayerType) (st : MapState) : MapState :=
  mkState (drawnFeatures st) (selectedFeatureId st) (drawMode st) (layerObjects st)
    (onMap st ∖ match t with workArea => workAreaLayer st | record => recordLayer st end)
    (match t with workArea => ∅ | record => workAreaLayer st end)
    (match t with record => ∅ | workArea => recordLayer st end)
    (clickSelects st) (polygonChanges st).

(** [f.layerType !== layerType] *)
Definition layerType_differs (t : LayerType) (f : DrawnFeature) : bool :=
  match layerType f, t with
  | workArea, workArea | record, record => false
  | _, _ => true
  end.

(** [clearAllDrawnFeatures] *)
Definition clearAllDrawnFeatures (st : MapState) : MapState :=
  onPolygonChange [] None
    (setSelectedFeatureId None
       (setDrawnFeatures (fun _ => []) (clearLayers workArea st))).

(** [clearLayerFeatures] *)
Definition clearLayerFeatures (t : LayerType) (st : MapState) : MapState :=
  let st := clearLayers t st in
  let st := setDrawnFeatures (filter (fun f => layerType_differs t f = true)) st in
  let st := setSelectedFeatureId None st in
  match t with
  | workArea => onPolygonChange [] None st
  | record => st
  end.

(** [handleRemove].  The parent is told from inside the state update, when
    the filtered list is empty. *)
Definition handleRemove (e : option PmEvent) (st : MapState) : MapState :=
  match e with
  | None => st
  | Some ev =>
    match ev_layer ev with
    | None => st
    | Some removed =>
        let filtered :=
          filter (fun feature => negb (Nat.eqb (layer feature) removed) = true)
                 (drawnFeatures st) in
        let st := match filtered with
                  | [] => onPolygonChange [] None st
                  | _ :: _ => st
                  end in
        setDrawnFeatures (fun _ => filtered) st
    end
  end.

(* ------------------------------------------------------------------ *)
(** ** Georeferencing capture

    The third effect of the component, between its set-up and its
    clean-up: the two local variables [currentLayer] and [points], the
    georeferencing layer group, and the calls made to [onGeorefComplete]
    (oldest first).  A new layer object gets the next stamp of the mapping
    library as its identity. *)

Inductive GeorefMode := georefPoint | georefLine | georefPolygon.

(** The layers that the effect creates, each with the argument it was
    created from: [L.marker(e.latlng, ...)], [L.polyline(points, ...)] and
    [L.polygon(points, ...)]. *)
Inductive GeorefLayer :=
  | GeorefMarker (latlng : LatLng float)
  | GeorefPolyline (from : list (LatLng float))
  | GeorefPolygon (from : list (LatLng float)).

(** The argument of [onGeorefComplete]. *)
Inductive GeorefResult :=
  | GeorefPointResult (point : LatLng float)
  | GeorefPathResult (type : GeorefMode) (path : list (LatLng float)).

Record GeorefState := mkGeoref {
  currentLayer : option LayerRef;
  points : list (LatLng float);
  georefLayer : gmap LayerRef GeorefLayer;
  nextStamp : LayerRef;
  georefCompleted : list GeorefResult
}.

(** The set-up of the effect: [georefLayer.clearLayers()], then
    [currentLayer = null] and [points = []]. *)
Definition georef_start (stamp : LayerRef) (completed : list GeorefResult) : GeorefState :=
  mkGeoref None [] ∅ stamp completed.

(** [georefMode === "line" ? L.polyline(points, ...) : L.polygon(points, ...)] *)
Definition georef_shape (mode : GeorefMode) (pts : list (LatLng float)) : GeorefLayer :=
  match mode with
  | georefLine => GeorefPolyline pts
  | _ => GeorefPolygon pts
  end.

(** [handleClick] of the georeferencing effect. *)
Definition georef_handleClick (mode : GeorefMode) (latlng : LatLng float)
    (st : GeorefState) : GeorefState :=
  match mode with
  | georefPoint =>
      mkGeoref (currentLayer st) (points st)
        (<[ nextStamp st := GeorefMarker latlng ]> (georefLayer st))
        (S (nextStamp st))
        (georefCompleted st ++ [GeorefPointResult (mkLatLng (lat latlng) (lng latlng))])
  | georefLine | georefPolygon =>
      let pts := points st ++ [latlng] in
      let group := match currentLayer st with
                   | Some old => delete old (georefLayer st)
                   | None => georefLayer st
                   end in
      mkGeoref (Some (nextStamp st)) pts
        (<[ nextStamp st := georef_shape mode pts ]> group)
        (S (nextStamp st))
        (georefCompleted st)
  end.

(** [handleDblClick] of the georeferencing effect. *)
Definition georef_handleDblClick (mode : GeorefMode) (st : GeorefState) : GeorefState :=
  match mode with
  | georefPoint => st
  | georefLine | georefPolygon =>
      if (1 <? length (points st))%nat then
        mkGeoref None [] (georefLayer st) (nextStamp st)
          (georefCompleted st ++ [GeorefPathResult mode (plain_coordinates (points st))])
      else st
  end.

(** The events that reach the two handlers. *)
Inductive GeorefEvent := GeorefClick (latlng : LatLng float) | GeorefDblClick.

Definition georef_handle (mode : GeorefMode) (st : GeorefState) (ev : GeorefEvent)
    : GeorefState :=
  match ev with
  | GeorefClick latlng => georef_handleClick mode latlng st
  | GeorefDblClick => georef_handleDblClick mode st
  end.

Definition georef_run (mode : GeorefMode) (evs : list GeorefEvent) (st : GeorefState)
    : GeorefState :=
  fold_left (georef_handle mode) evs st.

(* ------------------------------------------------------------------ *)
(** ** What can happen to the registry *)

(** The editing plugin moves vertices; it does not turn a layer into one of
    another class. *)
Definition same_class (o o' : LayerObject) : bool :=
  match o, o' with
  | LPolygon _ _, LPolygon _ _ | LRectangle _ _, LRectangle _ _
  | LPolyline _, LPolyline _ | LMarker _, LMarker _ | LOther, LOther => true
  | _, _ => false
  end.

Section Steps.
Variable Math_sin : float -> float.

(** One event of the component or of the drawing plugin.  The component
    is its state together with the closure of the handlers that are
    subscribed.  A render subscribes the closure of the current state;
    nothing is assumed on when it happens between two events. *)
Inductive step : MapState * Closure -> MapState * Closure -> Prop :=
  | step_draw l o st c :
      layerObjects st !! l = None -> step (st, c) (plugin_draw l o st, c)
  | step_vertices l o o' st c :
      layerObjects st !! l = Some o -> same_class o o' = true ->
      step (st, c) (plugin_edit l o' st, c)
  | step_create i e st c : step (st, c) (handleCreate Math_sin c i e st, c)
  | step_edit e st c : step (st, c) (handleEdit Math_sin e st, c)
  | step_remove e st c : step (st, c) (handleRemove e st, c)
  | step_clear t st c : step (st, c) (clearLayerFeatures t st, c)
  | step_clear_all st c : step (st, c) (clearAllDrawnFeatures st, c)
  | step_mode m st c : step (st, c) (setDrawMode m st, c)
  | step_render st c : step (st, c) (st, render st).

(** The states the component can be in after mount, where the handlers of
    the first render are subscribed. *)
Definition reachable (st : MapState) : Prop :=
  exists c, rtc step (initial_state, render initial_state) (st, c).
End Steps.

(** What the kind of a registered feature says about its layer object, its
    area and its coordinates. *)
Definition feature_consistent (objects : gmap LayerRef LayerObject) (f : DrawnFeature)
    : Prop :=
  match objects !! layer f with
  | Some o =>
      match type f with
      | polygon => instanceof o CPolygon = true /\ is_Some (area f)
      | polyline => (exists latlngs, o = LPolyline latlngs) /\ area f = None
      | marker => (exists latlng, o = LMarker latlng) /\ area f = None
                  /\ length (coordinates f) = 1%nat
      | rectangle => False
      end
  | None => False
  end.

Definition registry_consistent (st : MapState) : Prop :=
  forall f, f ∈ drawnFeatures st -> feature_consistent (layerObjects st) f.

(** No registered feature is a duplicate of an earlier one, as
    [isDuplicateFeature] tests it. *)
Fixpoint duplicate_free (fs : list DrawnFeature) : Prop :=
  match fs with
  | [] => True
  | f :: rest =>
      (forall g, g ∈ rest ->
                 areCoordinatesEqual (coordinates f) (coordinates g) None = false)
      /\ duplicate_free rest
  end.

(** Classification of a number by its decoded form. *)
Definition SFfinite (x : spec_float) : bool :=
  match x with
  | S754_zero _ | S754_finite _ _ _ => true
  | _ => false
  end.

(** The decoded form of a zero of either sign. *)
Definition SFzero (x : spec_float) : bool :=
  match x with
  | S754_zero _ => true
  | _ => false
  end.

(** Every coordinate of the sequence is a finite number. *)
Definition finite_point (p : LatLng float) : bool :=
  PrimFloat.is_finite (lat p) && PrimFloat.is_finite (lng p).
Definition finite_coordinates (c : list (LatLng float)) : bool := forallb finite_point c.

(** The entry that [handleCreate] builds for a layer object. *)
Definition new_feature (Math_sin : float -> float) (i : string) (l : LayerRef)
    (o : LayerObject) (m : option DrawMode) : DrawnFeature :=
  mkFeature i
    (if instanceof o CPolygon then polygon
     else if instanceof o CPolyline then polyline
     else if instanceof o CMarker then marker
     else rectangle)
    (if instanceof o CPolygon then Some (calculateArea Math_sin (getLatLngs_0 o))
     else None)
    (drawn_coordinates o) l
    (match m with Some drawRecord => record | _ => workArea end).

(** The layer type that [handleCreate] picks from the draw mode. *)
Definition target_of (m : option DrawMode) : LayerType :=
  match m with Some drawRecord => record | _ => workArea end.

(** The members of one of the two groups. *)
Definition group_of (t : LayerType) (st : MapState) : gset LayerRef :=
  match t with workArea => workAreaLayer st | record => recordLayer st end.

(** The points of the click events of a list of events. *)
Fixpoint clicked (evs : list GeorefEvent) : list (LatLng float) :=
  match evs with
  | [] => []
  | GeorefClick latlng :: rest => latlng :: clicked rest
  | GeorefDblClick :: rest => clicked rest
  end.

(** A feature with other coordinates. *)
Definition with_coordinates (f : DrawnFeature) (c : list (LatLng float)) : DrawnFeature :=
  mkFeature (id f) (type f) (area f) c (layer f) (layerType f).

(* ------------------------------------------------------------------ *)
(** ** More sample data *)

Section Samples2.
Local Open Scope float_scope.

Definition sample_line : list (LatLng float) := [pt 43.7 (-79.4); pt 43.8 (-79.3)].
Definition sample_line_moved : list (LatLng float) :=
  [pt 43.7 (-79.4); pt 43.9 (-79.2); pt 44 (-79.1)].

(** The polygon of [one_polygon], then a line drawn and registered in
    record mode. *)
Definition line_drawn : MapState :=
  plugin_draw 2%nat (LPolyline sample_line) (setDrawMode (Some drawRecord) one_polygon).
Definition polygon_and_line : MapState :=
  handleCreate sin_ref (render line_drawn) "feature-2" (event_for 2%nat) line_drawn.

(** The line after its vertices have been moved, before the edit event. *)
Definition line_moved : MapState :=
  plugin_edit 2%nat (LPolyline sample_line_moved) polygon_and_line.

(** A capture that starts with nothing on the georeferencing layer. *)
Definition georef_idle : GeorefState := georef_start 7%nat [].

Definition three_clicks : list (LatLng float) :=
  [pt 43.7 (-79.4); pt 43.71 (-79.4); pt 43.71 (-79.39)].

(** A triangle on the reals, in degrees. *)
Definition real_triangle : list (LatLng R) :=
  [mkLatLng 0%R 0%R; mkLatLng 0%R 1%R; mkLatLng 1%R 1%R].
End Samples2.

(* ------------------------------------------------------------------ *)
(** ** Facts about the loop of [calculateArea] *)

Section LoopFacts.
Context {num : Type} `{A : Arith num}.
Variable Math_sin : num -> num.
Local Open Scope num_scope.

Lemma rotate_1_cons {T : Type} (x : T) (xs : list T) :
  rotate 1 (x :: xs) = xs ++ [x].
Proof.
  unfold rotate. destruct xs as [|y ys]; [reflexivity|].
  replace (1 mod length (x :: y :: ys))%nat with 1%nat; [reflexivity|].
  symmetry. apply Nat.mod_small. simpl. lia.
Qed.

Lemma cyclic_pairs_index (pts : list (LatLng num)) :
  cyclic_pairs pts =
  map (fun i => (at_index pts i, at_index pts ((i + 1) mod length pts)))
      (seq 0 (length pts)).
Proof.
  unfold cyclic_pairs. destruct pts as [|x xs]; [reflexivity|].
  rewrite rotate_1_cons.
  assert (Hlen : length (combine (x :: xs) (xs ++ [x])) = length (x :: xs)).
  { rewrite length_combine, length_app. cbn [length]. lia. }
  apply (nth_ext _ _ (origin, origin) (origin, origin)).
  - rewrite Hlen, length_map, length_seq. reflexivity.
  - intros i Hi. rewrite Hlen in Hi.
    rewrite combine_nth by (rewrite length_app; cbn [length]; lia).
    set (f := fun i0 : nat => _) at 1.
    rewrite (nth_indep _ _ (f 0%nat)) by (rewrite length_map, length_seq; exact Hi).
    rewrite map_nth, seq_nth by exact Hi.
    subst f. cbn beta. change (0 + i)%nat with i. unfold at_index. f_equal.
    cbn [length] in *.
    destruct (Nat.eq_dec (i + 1)%nat (S (length xs))) as [E|E].
    + rewrite E, Nat.Div0.mod_same. cbn [nth].
      rewrite app_nth2 by lia.
      replace (i - length xs)%nat with 0%nat by lia. reflexivity.
    + rewrite Nat.mod_small by lia.
      replace (i + 1)%nat with (S i) by lia. cbn [nth].
      rewrite app_nth1 by lia. reflexivity.
Qed.

Lemma fold_left_map_acc {X Y : Type} (g : X -> Y) (f : num -> Y -> num)
    (l : list X) (z : num) :
  fold_left f (map g l) z = fold_left (fun acc x => f acc (g x)) l z.
Proof. revert z. induction l as [|x l IH]; intros z; [reflexivity|]. cbn. apply IH. Qed.

Lemma loop_is_excess_sum (pts : list (LatLng num)) :
  fold_left (area_step Math_sin pts) (seq 0 (length pts)) zero = excess_sum Math_sin pts.
Proof.
  unfold excess_sum. rewrite cyclic_pairs_index, fold_left_map_acc. reflexivity.
Qed.

Lemma calculateArea_short (latlngs : list (LatLng num)) :
  (length latlngs < 3)%nat -> calculateArea Math_sin latlngs = zero.
Proof.
  intros Hlen. unfold calculateArea.
  destruct (Nat.ltb_spec (length latlngs) 3) as [_|Hge]; [reflexivity|lia].
Qed.

Lemma calculateArea_long (latlngs : list (LatLng num)) :
  (3 <= length latlngs)%nat ->
  calculateArea Math_sin latlngs =
  Math_abs ((excess_sum Math_sin (map toRadPoint latlngs) * EARTH_RADIUS * EARTH_RADIUS) / two).
Proof.
  intros Hlen. unfold calculateArea.
  destruct (Nat.ltb_spec (length latlngs) 3) as [Hlt|_]; [lia|].
  cbv zeta. rewrite loop_is_excess_sum. reflexivity.
Qed.
End LoopFacts.

(* ------------------------------------------------------------------ *)
(** ** Facts about [areCoordinatesEqual] *)

Section EqualFacts.
Context {num : Type} `{A : Arith num}.
Local Open Scope num_scope.

Lemma every_from_spec {T : Type} (f : nat -> T -> bool) (l : list T) (i : nat) :
  every_from f i l = true <->
  forall j x, l !! j = Some x -> f (i + j)%nat x = true.
Proof.
  revert i. induction l as [|y l IH]; intros i; cbn [every_from].
  - split; [intros _ j x Hj; discriminate Hj | reflexivity].
  - destruct (f i y) eqn:Hy.
    + rewrite IH. split.
      * intros Hall [|j] x Hj; cbn in Hj.
        -- injection Hj as <-. rewrite Nat.add_0_r. exact Hy.
        -- replace (i + S j)%nat with (S i + j)%nat by lia. apply Hall, Hj.
      * intros Hall j x Hj.
        replace (S i + j)%nat with (i + S j)%nat by lia. apply Hall, Hj.
    + split; [discriminate|].
      intros Hall. rewrite <- Hy, <- (Nat.add_0_r i). apply Hall. reflexivity.
Qed.

Lemma coord_match_within (b : list (LatLng num)) (t : num) (j : nat) (p q : LatLng num) :
  b !! j = Some q -> (coord_match b t j p = true <-> within t p q).
Proof.
  intros Hq. unfold coord_match, within. rewrite Hq. cbv zeta.
  rewrite andb_true_iff. reflexivity.
Qed.

Lemma areCoordinatesEqual_length_ne (a b : list (LatLng num)) (t : option num) :
  length a <> length b -> areCoordinatesEqual a b t = false.
Proof.
  intros Hne. unfold areCoordinatesEqual.
  destruct (Nat.eqb_spec (length a) (length b)) as [E|_]; [contradiction|reflexivity].
Qed.

Lemma areCoordinatesEqual_pointwise (a b : list (LatLng num)) (t : num) :
  length a = length b ->
  (areCoordinatesEqual a b (Some t) = true <->
   forall i p q, a !! i = Some p -> b !! i = Some q -> within t p q).
Proof.
  intros Hlen. unfold areCoordinatesEqual. cbn [default].
  destruct (Nat.eqb_spec (length a) (length b)) as [_|Hne]; [|contradiction].
  cbn [negb]. rewrite every_from_spec. split.
  - intros Hall i p q Hp Hq. apply (coord_match_within b t i p q Hq).
    apply (Hall i p Hp).
  - intros Hall j p Hp. cbn [Nat.add].
    destruct (lookup_lt_is_Some_2 b j) as [q Hq].
    { rewrite <- Hlen. apply lookup_lt_is_Some_1. eauto. }
    apply (coord_match_within b t j p q Hq). eauto.
Qed.

Lemma areCoordinatesEqual_default (a b : list (LatLng num)) :
  areCoordinatesEqual a b None = areCoordinatesEqual a b (Some (lit (1 # 1000000))).
Proof. reflexivity. Qed.
End EqualFacts.

(* ------------------------------------------------------------------ *)
(** ** Facts about binary64 comparison *)

Section FloatFacts.
Local Open Scope float_scope.

Lemma SFcompare_antisym (x y : spec_float) :
  SFcompare y x = option_map CompOpp (SFcompare x y).
Proof.
  destruct x as [sx|sx| |sx mx ex], y as [sy|sy| |sy my ey];
    try destruct sx; try destruct sy; try reflexivity;
    cbn [SFcompare option_map]; f_equal;
    rewrite (Z.compare_antisym ey ex);
    destruct (ey ?= ex)%Z; cbn [CompOpp]; try reflexivity;
    rewrite (Pos.compare_cont_antisym mx my Eq); cbn [CompOpp];
    destruct (Pos.compare_cont Eq mx my); reflexivity.
Qed.

(** [a <= x] rules out [x < a]. *)
Lemma leb_not_ltb (a x : float) : (a <=? x) = true -> (x <? a) = false.
Proof.
  rewrite leb_spec, ltb_spec. unfold SFleb, SFltb.
  rewrite (SFcompare_antisym (Prim2SF a) (Prim2SF x)).
  destruct (SFcompare (Prim2SF a) (Prim2SF x)) as [[ | | ]|]; cbn; congruence.
Qed.

(** Unless a comparison with a number fails on NaN, [not (x < a)] is
    [a <= x]. *)
Lemma not_ltb_leb (a b x : float) :
  (x <? a) = false -> (x <? b) = true -> (a =? a) = true -> (a <=? x) = true.
Proof.
  rewrite leb_spec, !ltb_spec, FloatAxioms.eqb_spec. unfold SFleb, SFltb, SFeqb.
  rewrite (SFcompare_antisym (Prim2SF x) (Prim2SF a)).
  destruct (Prim2SF a) as [sa|sa| |sa ma ea], (Prim2SF x) as [sx|sx| |sx mx ex],
    (Prim2SF b) as [sb|sb| |sb mb eb]; cbn [SFcompare option_map]; try discriminate;
    try (destruct sa, sx; cbn; congruence).
  all: destruct sa, sx; cbn; try congruence;
    destruct (ex ?= ea)%Z; cbn; try congruence;
    destruct (Pos.compare_cont Eq mx ma); cbn; congruence.
Qed.


End FloatFacts.

(* ------------------------------------------------------------------ *)
(** ** The excess sum in exact arithmetic *)

Section RealFacts.
Local Open Scope R_scope.


Lemma fold_left_Rsum {T : Type} (f : T -> R) (l : list T) (z : R) :
  fold_left (fun acc x => acc + f x) l z = z + Rsum (map f l).
Proof.
  unfold Rsum. revert z.
  induction l as [|x l IH]; intros z; cbn [fold_left map fold_right]; [lra|].
  rewrite IH. lra.
Qed.

Lemma Q2R_2 : Q2R 2 = 2.
Proof. unfold Q2R. cbn. lra. Qed.

Lemma Q2R_0 : Q2R 0 = 0.
Proof. unfold Q2R. cbn. lra. Qed.

Lemma excess_sum_real (pts : list (LatLng R)) :
  excess_sum sin pts = Rsum (map rterm (cyclic_pairs pts)).
Proof.
  unfold excess_sum. cbn [lit nadd nsub nmul real_arith].
  rewrite Q2R_2, Q2R_0.
  rewrite (fold_left_Rsum rterm). lra.
Qed.

Lemma adjacent_snoc {T : Type} (l : list T) (a b : T) :
  adjacent (l ++ [a; b]) = adjacent (l ++ [a]) ++ [(a, b)].
Proof.
  unfold adjacent. induction l as [|x l IH]; [reflexivity|].
  destruct l as [|y l]; [reflexivity|].
  cbn [app tl combine] in *. rewrite IH. reflexivity.
Qed.

Lemma combine_longer_left {T U : Type} (l1 e : list T) (l2 : list U) :
  (length l2 <= length l1)%nat -> combine (l1 ++ e) l2 = combine l1 l2.
Proof.
  revert l2. induction l1 as [|a l1 IH]; intros [|b l2] Hlen; cbn in *;
    try reflexivity; try lia.
  - destruct e; reflexivity.
  - f_equal. apply IH. lia.
Qed.

Lemma cyclic_pairs_closed {T : Type} (x : LatLng T) (xs : list (LatLng T)) :
  cyclic_pairs (x :: xs) = adjacent (x :: xs ++ [x]).
Proof.
  unfold cyclic_pairs, adjacent. rewrite rotate_1_cons. cbn [tl].
  change (x :: xs ++ [x]) with ((x :: xs) ++ [x]).
  symmetry. apply combine_longer_left.
  rewrite length_app. cbn [length]. lia.
Qed.








End RealFacts.

(* ------------------------------------------------------------------ *)
(** ** Area on the reals and on binary64 numbers *)

Section AreaFacts.
Local Open Scope R_scope.

Lemma calculateArea_real_long (ring : list (LatLng R)) :
  (3 <= length ring)%nat ->
  calculateArea sin ring
  = Rabs (excess_sum sin (map toRadPoint ring) * 6378137 * 6378137 / 2).
Proof.
  intros Hlen. rewrite (calculateArea_long sin ring Hlen).
  unfold EARTH_RADIUS, two. cbn [lit nmul ndiv Math_abs real_arith].
  rewrite Q2R_2. f_equal. unfold Q2R. cbn. lra.
Qed.





Lemma combine_map_both {T U : Type} (g : T -> U) (l1 l2 : list T) :
  combine (map g l1) (map g l2) = map (fun pq => (g (fst pq), g (snd pq))) (combine l1 l2).
Proof.
  revert l2. induction l1 as [|a l1 IH]; intros [|b l2]; cbn; try reflexivity.
  f_equal. apply IH.
Qed.

Lemma cyclic_pairs_map {T U : Type} (g : LatLng T -> LatLng U) (ring : list (LatLng T)) :
  cyclic_pairs (map g ring)
  = map (fun pq => (g (fst pq), g (snd pq))) (with_successor ring).
Proof.
  unfold cyclic_pairs, with_successor. destruct ring as [|x xs]; [reflexivity|].
  cbn [map]. rewrite rotate_1_cons.
  change (g x :: map g xs) with (map g (x :: xs)).
  change (map g xs ++ [g x]) with (map g xs ++ map g [x]).
  rewrite <- map_app. apply combine_map_both.
Qed.

Lemma Q2R_180 : Q2R 180 = 180.
Proof. unfold Q2R. cbn. lra. Qed.

(** The loop over the converted points is the sum of the stated formula,
    on the reals and on binary64 numbers. *)
Lemma excess_sum_exact (ring : list (LatLng R)) :
  excess_sum sin (map toRadPoint ring) = exact_sum ring.
Proof.
  rewrite excess_sum_real, cyclic_pairs_map, map_map. unfold exact_sum.
  f_equal. apply map_ext. intros [p q]. unfold rterm, exact_radians.
  cbn [fst snd lat lng toRadPoint]. unfold toRad.
  cbn [lit nmul ndiv Math_PI real_arith]. rewrite Q2R_180. reflexivity.
Qed.

Lemma excess_sum_stated (host_sin : float -> float) (ring : list (LatLng float)) :
  excess_sum host_sin (map toRadPoint ring) = stated_sum host_sin ring.
Proof.
  unfold excess_sum, stated_sum. rewrite cyclic_pairs_map, fold_left_map_acc.
  reflexivity.
Qed.


End AreaFacts.

(* ------------------------------------------------------------------ *)
(** ** Facts about the handlers *)

Section HandlerFacts.
Variable Math_sin : float -> float.

Lemma plain_coordinates_id (l : list (LatLng float)) : plain_coordinates l = l.
Proof.
  unfold plain_coordinates. induction l as [|[a b] l IH]; [reflexivity|].
  cbn. rewrite IH. reflexivity.
Qed.

Lemma isDuplicateFeature_true (c : list (LatLng float)) (fs : list DrawnFeature) :
  isDuplicateFeature c fs = true <->
  exists f, f ∈ fs /\ areCoordinatesEqual (coordinates f) c None = true.
Proof.
  unfold isDuplicateFeature. rewrite existsb_exists.
  split; intros [f [Hin Heq]]; exists f; split; try exact Heq.
  - apply list_elem_of_In, Hin.
  - apply list_elem_of_In, Hin.
Qed.

Lemma isDuplicateFeature_coordinates (c : list (LatLng float))
    (fs : list DrawnFeature) :
  isDuplicateFeature c fs
  = existsb (fun cs => areCoordinatesEqual cs c None) (map coordinates fs).
Proof.
  unfold isDuplicateFeature. induction fs as [|f fs IH]; [reflexivity|].
  cbn [existsb map]. rewrite IH. reflexivity.
Qed.

(** A duplicate shape is taken off the map and nothing else happens,
    apart from the click handler that was already put on it. *)
Lemma handleCreate_duplicate (c : Closure) (i : string) (l : LayerRef)
    (o : LayerObject) (st : MapState) :
  layerObjects st !! l = Some o ->
  drawable o = true ->
  isDuplicateFeature (drawn_coordinates o) (closure_drawnFeatures c) = true ->
  handleCreate Math_sin c i (event_for l) st = map_removeLayer l (on_click l i st).
Proof.
  intros Hobj Hdraw Hdup. unfold handleCreate, event_for. cbn [ev_layer].
  rewrite Hobj. cbn [from_option Datatypes.id on_click]. cbv zeta.
  destruct o as [outer holes|outer holes|latlngs|latlng|];
    cbn [instanceof drawn_coordinates] in *;
    try rewrite Hdup; try reflexivity.
  discriminate Hdraw.
Qed.

(** A shape that is no duplicate is registered at the end of the list. *)
Lemma handleCreate_fresh_polygon (c : Closure) (i : string) (l : LayerRef)
    (outer : list (LatLng float)) (holes : list (list (LatLng float)))
    (st : MapState) :
  layerObjects st !! l = Some (LPolygon outer holes) ->
  isDuplicateFeature outer (closure_drawnFeatures c) = false ->
  drawnFeatures (handleCreate Math_sin c i (event_for l) st)
  = drawnFeatures st ++
    [mkFeature i polygon (Some (calculateArea Math_sin outer)) outer l
       (match closure_drawMode c with Some drawRecord => record | _ => workArea end)].
Proof.
  intros Hobj Hdup. unfold handleCreate, event_for. cbn [ev_layer].
  rewrite Hobj. cbn [from_option Datatypes.id on_click instanceof getLatLngs_0]. cbv zeta.
  rewrite plain_coordinates_id, Hdup.
  destruct (closure_drawMode c) as [[ | | ]|]; reflexivity.
Qed.

Lemma edit_feature_other (objects : gmap LayerRef LayerObject) (edited : LayerRef)
    (g : DrawnFeature) :
  layer g <> edited -> edit_feature Math_sin objects edited g = g.
Proof.
  intros Hne. unfold edit_feature.
  destruct (Nat.eqb_spec (layer g) edited) as [E|_]; [contradiction|reflexivity].
Qed.

Lemma edit_feature_ring (objects : gmap LayerRef LayerObject) (f : DrawnFeature)
    (o : LayerObject) (R2 : list (LatLng float)) :
  objects !! layer f = Some o ->
  instanceof o CPolygon = true ->
  getLatLngs_0 o = R2 ->
  edit_feature Math_sin objects (layer f) f
  = mkFeature (id f) (type f) (Some (calculateArea Math_sin R2)) R2
      (layer f) (layerType f).
Proof.
  intros Hobj Hpoly Hring. unfold edit_feature.
  rewrite Nat.eqb_refl, Hobj. cbn [from_option Datatypes.id]. rewrite Hpoly. cbn [orb].
  rewrite Hring, plain_coordinates_id. reflexivity.
Qed.
(** [handleCreate] never touches the layer objects. *)
Lemma handleCreate_layerObjects (c : Closure) (i : string) (e : option PmEvent)
    (st : MapState) :
  layerObjects (handleCreate Math_sin c i e st) = layerObjects st.
Proof.
  unfold handleCreate. destruct e as [[[l|]]|]; cbn [ev_layer]; try reflexivity.
  repeat match goal with
         | |- context [if ?b then _ else _] => destruct b
         | |- context [match ?m with workArea => _ | record => _ end] => destruct m
         end; reflexivity.
Qed.

(** [handleCreate] adds at most one feature, at the end. *)
Lemma handleCreate_features (c : Closure) (i : string) (e : option PmEvent)
    (st : MapState) :
  drawnFeatures (handleCreate Math_sin c i e st) = drawnFeatures st
  \/ exists g, drawnFeatures (handleCreate Math_sin c i e st) = drawnFeatures st ++ [g]
               /\ (type g = marker ->
                   exists latlng, layerObjects st !! layer g = Some (LMarker latlng)
                                  /\ coordinates g = [latlng]).
Proof.
  unfold handleCreate. destruct e as [[[l|]]|]; cbn [ev_layer];
    try (left; reflexivity).
  cbv zeta.
  destruct (closure_drawMode c) as [[ | | ]|];
    (destruct (layerObjects st !! l) as [o|] eqn:Hobj; cbn [from_option Datatypes.id];
     [destruct o as [outer holes|outer holes|latlngs|latlng|]|];
     cbn [instanceof on_click drawnFeatures];
     try (left; reflexivity);
     match goal with
     | |- context [if isDuplicateFeature ?c ?fs then _ else _] =>
         destruct (isDuplicateFeature c fs); [left; reflexivity|]
     end;
     right; eexists; (split; [reflexivity|]);
     cbn [type]; try discriminate;
     intros _; exists latlng; cbn [layer coordinates getLatLng_array];
     (split; [exact Hobj|]); apply plain_coordinates_id).
Qed.

(** Markers keep a position through creation events. *)
Lemma handleCreate_markers_positioned (c : Closure) (i : string) (e : option PmEvent)
    (st : MapState) :
  markers_positioned st -> markers_positioned (handleCreate Math_sin c i e st).
Proof.
  intros Hwf f Hin Hm. rewrite handleCreate_layerObjects.
  destruct (handleCreate_features c i e st) as [Hsame|[g [Hadd Hg]]].
  - rewrite Hsame in Hin. apply Hwf; assumption.
  - rewrite Hadd in Hin. apply elem_of_app in Hin as [Hin|Hin].
    + apply Hwf; assumption.
    + apply list_elem_of_singleton in Hin. subst f.
      destruct (Hg Hm) as [latlng [Hobj Hc]].
      split; [rewrite Hc; discriminate | exists latlng; exact Hobj].
Qed.

(** And through edit events. *)
Lemma handleEdit_markers_positioned (e : option PmEvent) (st : MapState) :
  markers_positioned st -> markers_positioned (handleEdit Math_sin e st).
Proof.
  intros Hwf. unfold handleEdit. destruct e as [[[l|]]|]; cbn [ev_layer];
    try exact Hwf.
  intros f Hin Hm. cbn [setDrawnFeatures drawnFeatures layerObjects] in *.
  apply list_elem_of_fmap in Hin as [g [-> Hg]].
  assert (Hsame : type (edit_feature Math_sin (layerObjects st) l g) = type g
                  /\ layer (edit_feature Math_sin (layerObjects st) l g) = layer g).
  { unfold edit_feature.
    repeat match goal with
           | |- context [if ?b then _ else _] => destruct b
           end; split; reflexivity. }
  destruct Hsame as [Hty Hly]. rewrite Hty in Hm. rewrite Hly.
  destruct (Hwf g Hg Hm) as [Hc [latlng Hobj]].
  split; [|exists latlng; exact Hobj].
  unfold edit_feature. destruct (Nat.eqb (layer g) l); [|exact Hc].
  rewrite Hobj. cbn. discriminate.
Qed.
End HandlerFacts.

(* ------------------------------------------------------------------ *)
(** ** Facts about the formatter *)

Section FormatFacts.
Local Open Scope float_scope.
Variable Number_toString : float -> string.

Lemma formatArea_m2 (x : float) :
  (x <? 10000) = true ->
  formatArea Number_toString x = String.append (toFixed Number_toString x 2) " m²".
Proof. intros H. unfold formatArea. rewrite H. reflexivity. Qed.

Lemma formatArea_hectares (x : float) :
  (x <? 10000) = false -> (x <? 1000000) = true ->
  formatArea Number_toString x
  = String.append (toFixed Number_toString (x / 10000) 4) " hectares".
Proof. intros H1 H2. unfold formatArea. rewrite H1, H2. reflexivity. Qed.

Lemma formatArea_km2 (x : float) :
  (x <? 10000) = false -> (x <? 1000000) = false ->
  formatArea Number_toString x
  = String.append (toFixed Number_toString (x / 1000000) 2) " km²".
Proof. intros H1 H2. unfold formatArea. rewrite H1, H2. reflexivity. Qed.

(** Nothing at or above a million is below ten thousand. *)
Lemma million_not_below_ten_thousand (x : float) :
  (1000000 <=? x) = true -> (x <? 10000) = false.
Proof.
  rewrite leb_spec, ltb_spec. unfold SFleb, SFltb.
  change (Prim2SF 1000000) with (S754_finite false 8589934592000000 (-33)).
  change (Prim2SF 10000) with (S754_finite false 5497558138880000 (-39)).
  destruct (Prim2SF x) as [s|s| |s m e]; try (destruct s); cbn [SFcompare];
    try congruence.
  destruct (Z.compare_spec (-33) e) as [E|E|E]; try congruence;
    destruct (Z.compare_spec e (-39)) as [F|F|F]; try congruence; lia.
Qed.
End FormatFacts.

(* ------------------------------------------------------------------ *)
(** ** Running the code *)

(** The literals of the source as binary64 values. *)
Example float_literals :
  @zero float _ = 0%float /\ @two float _ = 2%float /\
  @EARTH_RADIUS float _ = 6378137%float /\
  @lit float _ 180 = 180%float /\
  @default_tolerance float _ = 0.000001%float /\
  @Math_PI float _ = 3.141592653589793%float.
Proof. repeat split. Qed.

(** The reference sine at the special values and at a few arguments. *)
Example sin_ref_values :
  sin_ref 0 = 0%float /\ sin_ref (-0) = (-0)%float /\
  sin_ref nan = nan /\ sin_ref infinity = nan /\
  sin_ref 1 = 0.8414709848078965%float /\
  sin_ref 0.5235987755982988 = 0.49999999999999994%float /\
  sin_ref 1.5707963267948966 = 1%float.
Proof. repeat split. Qed.

(** A square of 0.001 degrees at the equator has about 12390 square
    metres. *)
Example small_square_area :
  calculateArea sin_ref small_square = 12392.02903003451%float.
Proof. vm_compute. reflexivity. Qed.

(** The stated formula on the same square.  The code takes the product
    [S * R * R] from left to right; with [R * R] taken first one rounding
    is saved and the last digit differs, so the grouping is part of the
    binary64 result.  On the reals the two are the same number. *)
Example stated_area_values :
  stated_area sin_ref small_square = 12392.02903003451%float /\
  PrimFloat.abs (stated_sum sin_ref small_square * (6378137 * 6378137) / 2)%float
  = 12392.029030034508%float.
Proof. split; vm_compute; reflexivity. Qed.

(** With the reference sine, the area of the pentagon changes in its last
    digits with the point the ring starts at. *)
Example pentagon_areas :
  map (fun k => calculateArea sin_ref (rotate k pentagon)) [0; 1; 2; 3; 4]%nat
  = [3247092.5837345547; 3247092.5837323489; 3247092.5837345547;
     3247092.5837367601; 3247092.5837334525]%float.
Proof. vm_compute. reflexivity. Qed.

(** [toFixed] rounds the exact binary value, not the decimal that was
    written. *)
Example toFixed_values :
  map (fun x => toFixed exponent_notation_unused x 2)
      [1.005; 8.345; 10.235; 9999.999; 0; -0; -0.001; 0.125; nan; infinity]%float
  = ["1.00"; "8.35"; "10.23"; "10000.00"; "0.00"; "0.00"; "-0.00"; "0.13"; "NaN";
     "Infinity"]%string.
Proof. vm_compute. reflexivity. Qed.

(* ------------------------------------------------------------------ *)
(** * The claims *)

(** ** Area calculator *)

(** C1.  For every ring with at least 3 points, [calculateArea] returns
    [abs(S * R² / 2)] with Earth radius [R = 6378137], where [S] is the
    sum, over every point paired with its successor and the last point
    paired with the first, of
    [(lng[i+1] - lng[i]) * (2 + sin(lat[i]) + sin(lat[i+1]))], taken after
    every latitude and longitude has been converted from degrees to
    radians, that is multiplied by pi and divided by 180.  The right-hand
    sides are the stated formula written on its own: on binary64 numbers,
    as the code runs, with the sum taken in ring order and
    [S * R * R / 2] from left to right; and on the real numbers, where the
    code is the formula exactly. *)
Theorem calculateArea_formula (Math_sin : float -> float) (ring : list (LatLng float))
    (exact_ring : list (LatLng R)) :
  (3 <= length ring)%nat ->
  (3 <= length exact_ring)%nat ->
  calculateArea Math_sin ring = stated_area Math_sin ring /\
  calculateArea sin exact_ring = exact_area exact_ring.
Proof.
  intros Hlen Hexact. split.
  - rewrite (calculateArea_long Math_sin ring Hlen), excess_sum_stated. reflexivity.
  - rewrite (calculateArea_real_long exact_ring Hexact), excess_sum_exact.
    unfold exact_area, Rsqr. f_equal. lra.
Qed.

Lemma calculateArea_formula_witness :
  calculateArea sin_ref small_square = stated_area sin_ref small_square /\
  calculateArea sin real_triangle = exact_area real_triangle.
Proof.
  apply (calculateArea_formula sin_ref small_square real_triangle); cbn; lia.
Defined.

(** C6.  For every coordinate sequence with fewer than 3 points, the empty
    sequence and single points included, [calculateArea] returns the
    number 0; the function is total, so this is a result and not an
    error. *)
Theorem calculateArea_fewer_than_3 (Math_sin : float -> float)
    (ring : list (LatLng float)) :
  (length ring < 3)%nat -> calculateArea Math_sin ring = 0%float.
Proof. intros Hlen. rewrite calculateArea_short by exact Hlen. reflexivity. Qed.

Lemma calculateArea_fewer_than_3_witness :
  calculateArea sin_ref [] = 0%float /\
  calculateArea sin_ref [pt 43.7 (-79.4)] = 0%float /\
  calculateArea sin_ref [pt 43.7 (-79.4); pt 43.71 (-79.39)] = 0%float.
Proof.
  split; [|split]; apply calculateArea_fewer_than_3; cbn; lia.
Defined.



(** ** Duplicate detector *)

(** C2.  For all coordinate sequences [a] and [b] and every tolerance [t]:
    [areCoordinatesEqual a b t] is false when the lengths differ;
    otherwise it is true exactly when at every index both
    [|a[i].lat - b[i].lat| < t] and [|a[i].lng - b[i].lng| < t], with
    strict comparisons, so one index that fails either comparison makes
    the result false.  A call without a tolerance uses [1e-6]. *)
Theorem areCoordinatesEqual_spec {num : Type} `{A : Arith num}
    (a b : list (LatLng num)) (t : num) :
  (length a <> length b -> areCoordinatesEqual a b (Some t) = false) /\
  (length a = length b ->
   (areCoordinatesEqual a b (Some t) = true <->
    forall i p q, a !! i = Some p -> b !! i = Some q -> within t p q)) /\
  (forall i p q, a !! i = Some p -> b !! i = Some q -> ~ within t p q ->
                 areCoordinatesEqual a b (Some t) = false) /\
  areCoordinatesEqual a b None = areCoordinatesEqual a b (Some (lit (1 # 1000000))) /\
  @lit float float_arith (1 # 1000000) = 1e-6%float.
Proof.
  split; [apply areCoordinatesEqual_length_ne|].
  split; [apply areCoordinatesEqual_pointwise|].
  split; [|split; reflexivity].
  intros i p q Hp Hq Hfar.
  destruct (Nat.eq_dec (length a) (length b)) as [Hlen|Hlen].
  - destruct (areCoordinatesEqual a b (Some t)) eqn:E; [|reflexivity].
    exfalso. apply Hfar.
    apply (proj1 (areCoordinatesEqual_pointwise a b t Hlen) E i p q Hp Hq).
  - apply areCoordinatesEqual_length_ne, Hlen.
Qed.

Lemma areCoordinatesEqual_spec_witness :
  areCoordinatesEqual [pt 0 0; pt 1 1] [pt 0 0] (Some 1e-6%float) = false /\
  areCoordinatesEqual triangle triangle_moved (Some 1e-6%float) = false.
Proof.
  split.
  - apply (proj1 (areCoordinatesEqual_spec [pt 0 0; pt 1 1] [pt 0 0] 1e-6%float)).
    cbn. lia.
  - apply (proj1 (proj2 (proj2
             (areCoordinatesEqual_spec triangle triangle_moved 1e-6%float)))
             1%nat (pt 43.71 (-79.4)) (pt 43.72 (-79.4))).
    + reflexivity.
    + reflexivity.
    + intros [Hlat _]. vm_compute in Hlat. discriminate Hlat.
Defined.

(** C7, as amended.  The comparison is by position.  A ring and its
    reverse, or a ring and a rotation of it, are considered equal exactly
    when at every index the two points found there are within the
    tolerance of each other; one index where they are not makes them
    unequal.  In particular [equal([(0,0),(1,1)], [(0,0),(1,1)], 1e-6)] is
    true and [equal([(0,0),(1,1)], [(1,1),(0,0)], 1e-6)] is false. *)
Theorem areCoordinatesEqual_is_positional (ring : list (LatLng float)) (t : float)
    (k : nat) :
  (areCoordinatesEqual ring (rev ring) (Some t) = true <->
   forall i p q, ring !! i = Some p -> rev ring !! i = Some q -> within t p q) /\
  (areCoordinatesEqual ring (rotate k ring) (Some t) = true <->
   forall i p q, ring !! i = Some p -> rotate k ring !! i = Some q -> within t p q) /\
  areCoordinatesEqual [pt 0 0; pt 1 1] [pt 0 0; pt 1 1] (Some 1e-6%float) = true /\
  areCoordinatesEqual [pt 0 0; pt 1 1] [pt 1 1; pt 0 0] (Some 1e-6%float) = false.
Proof.
  split; [apply areCoordinatesEqual_pointwise; rewrite length_rev; reflexivity|].
  split; [apply areCoordinatesEqual_pointwise; rewrite length_rotate; reflexivity|].
  split; vm_compute; reflexivity.
Qed.

(** C7, counterexample.  A triangle with sides of about five centimetres
    has all its points within [1e-6] degrees of each other, so it is
    considered equal to its reverse and to its rotation, although neither
    is the same sequence. *)
Lemma tiny_ring_equals_its_reverse :
  (3 <= length tiny_triangle)%nat /\
  areCoordinatesEqual tiny_triangle (rev tiny_triangle) (Some 1e-6%float) = true /\
  areCoordinatesEqual tiny_triangle (rotate 1 tiny_triangle) (Some 1e-6%float) = true /\
  rev tiny_triangle <> tiny_triangle /\
  rotate 1 tiny_triangle <> tiny_triangle.
Proof.
  split; [cbn; lia|].
  split; [vm_compute; reflexivity|].
  split; [vm_compute; reflexivity|].
  split; intros H;
    apply (f_equal (fun l => match l with
                             | p :: _ => PrimFloat.eqb (lat p) 43.7%float
                                         && PrimFloat.eqb (lng p) (-79.4)%float
                             | [] => false
                             end)) in H;
    vm_compute in H; discriminate H.
Qed.

(** ** Feature registry *)

(** C3, as amended.  [handleCreate] tests a freshly drawn shape against
    the registry that its closure holds, the one of the render that
    subscribed it.  When the coordinate sequence of the shape compares
    equal, under the duplicate detector with its default tolerance of
    [1e-6], to that of some feature of that registry, the shape is
    rejected: nothing is appended, the registry is unchanged and so is its
    length, the shape is taken off the map, and it joins neither layer
    group.  Once the component has rendered, the handler holds the current
    registry ([render st]), and then every registered feature blocks its
    duplicates: after one polygon has been registered and rendered, the
    length stays 1. *)
Theorem handleCreate_rejects_duplicate (Math_sin : float -> float) (c : Closure)
    (st : MapState) (i : string) (l : LayerRef) (o : LayerObject) (f : DrawnFeature) :
  layerObjects st !! l = Some o ->
  drawable o = true ->
  areCoordinatesEqual (coordinates f) (drawn_coordinates o) None = true ->
  (f ∈ closure_drawnFeatures c ->
   let st' := handleCreate Math_sin c i (event_for l) st in
   drawnFeatures st' = drawnFeatures st /\
   length (drawnFeatures st') = length (drawnFeatures st) /\
   (l ∉ onMap st') /\
   workAreaLayer st' = workAreaLayer st /\
   recordLayer st' = recordLayer st) /\
  (f ∈ drawnFeatures st ->
   let st' := handleCreate Math_sin (render st) i (event_for l) st in
   drawnFeatures st' = drawnFeatures st /\
   length (drawnFeatures st') = length (drawnFeatures st) /\
   (l ∉ onMap st')).
Proof.
  intros Hobj Hdraw Heq.
  assert (Hst' : forall c', f ∈ closure_drawnFeatures c' ->
            handleCreate Math_sin c' i (event_for l) st
            = map_removeLayer l (on_click l i st)).
  { intros c' Hin. apply handleCreate_duplicate with (o := o); [exact Hobj|exact Hdraw|].
    apply isDuplicateFeature_true. exists f. split; assumption. }
  assert (Hoff : l ∉ onMap (map_removeLayer l (on_click l i st))).
  { cbn [map_removeLayer on_click onMap].
    rewrite not_elem_of_difference. right. apply elem_of_singleton. reflexivity. }
  split.
  - intros Hin st'. subst st'. rewrite (Hst' c Hin).
    split; [reflexivity|]. split; [reflexivity|]. split; [exact Hoff|].
    split; reflexivity.
  - intros Hin st'. subst st'. rewrite (Hst' (render st) Hin).
    split; [reflexivity|]. split; [reflexivity|]. exact Hoff.
Qed.

Lemma handleCreate_rejects_duplicate_witness :
  length (drawnFeatures one_polygon) = 1%nat /\
  (2%nat ∈ onMap second_drawn) /\
  let st' := handleCreate sin_ref (render second_drawn) "feature-2" (event_for 2%nat)
               second_drawn in
  drawnFeatures st' = drawnFeatures second_drawn /\
  length (drawnFeatures st') = 1%nat /\
  (2%nat ∉ onMap st').
Proof.
  split; [reflexivity|]. split; [vm_compute; set_solver|].
  destruct (handleCreate_rejects_duplicate sin_ref (render second_drawn) second_drawn
              "feature-2" 2%nat (LPolygon triangle_nearby [])
              (mkFeature "feature-1" polygon (Some (calculateArea sin_ref triangle))
                 triangle 1%nat workArea))
    as [_ Hcurrent].
  - reflexivity.
  - reflexivity.
  - vm_compute. reflexivity.
  - destruct Hcurrent as [Hsame [Hlen Hoff]]; [vm_compute; left|].
    cbv zeta. split; [exact Hsame|]. split; [rewrite Hlen; reflexivity|exact Hoff].
Defined.

(** C3, counterexample.  A feature that is in the registry but not in the
    registry of the handler's closure does not block its duplicate.  The
    same triangle is drawn twice and both creation events reach the
    handler subscribed at mount, whose closure holds the empty registry:
    after the first event the registry holds the triangle and the
    duplicate detector finds the second shape in it, yet the second event
    registers the shape, the registry has length 2 with the same
    coordinates twice, and the second shape stays on the map. *)
Lemma unrendered_registration_does_not_block :
  map coordinates (drawnFeatures first_unrendered) = [triangle] /\
  isDuplicateFeature triangle (drawnFeatures first_unrendered) = true /\
  length (drawnFeatures second_unrendered) = 2%nat /\
  map coordinates (drawnFeatures second_unrendered) = [triangle; triangle] /\
  (2%nat ∈ onMap second_unrendered).
Proof.
  split; [vm_compute; reflexivity|].
  split; [vm_compute; reflexivity|].
  split; [vm_compute; reflexivity|].
  split; [vm_compute; reflexivity|].
  vm_compute. set_solver.
Qed.

(** C10, as amended.  The duplicate check at creation does not look at the
    owning layer.  Whether a freshly drawn shape is rejected depends only
    on the coordinate sequences of the features in the registry that the
    handler holds: a handler that holds a registry with the same
    coordinate sequences rejects it too, whatever the layers, kinds and
    ids of the entries, and whichever draw mode it holds.  So a work-area
    polygon, once rendered, blocks an identical record polygon. *)
Theorem duplicate_check_ignores_layer (Math_sin : float -> float) (c : Closure)
    (st : MapState) (i : string) (l : LayerRef) (o : LayerObject) (f : DrawnFeature) :
  layerObjects st !! l = Some o ->
  drawable o = true ->
  f ∈ closure_drawnFeatures c ->
  areCoordinatesEqual (coordinates f) (drawn_coordinates o) None = true ->
  forall (fs : list DrawnFeature) (mode : option DrawMode),
    map coordinates fs = map coordinates (closure_drawnFeatures c) ->
    isDuplicateFeature (drawn_coordinates o) fs = true /\
    drawnFeatures (handleCreate Math_sin (mkClosure fs mode) i (event_for l) st)
    = drawnFeatures st /\
    (l ∉ onMap (handleCreate Math_sin (mkClosure fs mode) i (event_for l) st)).
Proof.
  intros Hobj Hdraw Hin Heq fs mode Hfs.
  assert (Hdup : isDuplicateFeature (drawn_coordinates o) fs = true).
  { rewrite isDuplicateFeature_coordinates, Hfs, <- isDuplicateFeature_coordinates.
    apply isDuplicateFeature_true. exists f. split; assumption. }
  split; [exact Hdup|].
  rewrite (handleCreate_duplicate Math_sin (mkClosure fs mode) i l o st Hobj Hdraw Hdup).
  split; [reflexivity|].
  cbn [map_removeLayer on_click onMap].
  rewrite not_elem_of_difference. right. apply elem_of_singleton. reflexivity.
Qed.

Lemma duplicate_check_ignores_layer_witness :
  map layerType (drawnFeatures one_polygon) = [workArea] /\
  closure_drawMode (render (setDrawMode (Some drawRecord) one_polygon))
  = Some drawRecord /\
  drawnFeatures
    (handleCreate sin_ref (render (setDrawMode (Some drawRecord) one_polygon))
       "feature-2" (event_for 2%nat)
       (plugin_draw 2%nat (LPolygon triangle [])
          (setDrawMode (Some drawRecord) one_polygon)))
  = drawnFeatures one_polygon.
Proof.
  split; [reflexivity|]. split; [reflexivity|].
  refine (proj1 (proj2
    (duplicate_check_ignores_layer sin_ref (render one_polygon)
       (plugin_draw 2%nat (LPolygon triangle [])
          (setDrawMode (Some drawRecord) one_polygon))
       "feature-2" 2%nat (LPolygon triangle [])
       (mkFeature "feature-1" polygon (Some (calculateArea sin_ref triangle))
          triangle 1%nat workArea)
       _ _ _ _ (drawnFeatures one_polygon) (Some drawRecord) eq_refl))).
  - reflexivity.
  - reflexivity.
  - vm_compute. left.
  - vm_compute. reflexivity.
Defined.

(** C10, counterexample.  A drawn feature that is registered but not yet
    rendered does not block a shape with the same coordinates, on its own
    layer either.  In record mode the same line is drawn twice before the
    component renders: both are registered on the record layer. *)
Lemma unrendered_line_does_not_block :
  map layerType (drawnFeatures first_line_unrendered) = [record] /\
  isDuplicateFeature [pt 43.7 (-79.4); pt 43.8 (-79.3)]
    (drawnFeatures first_line_unrendered) = true /\
  map layerType (drawnFeatures second_line_unrendered) = [record; record] /\
  map coordinates (drawnFeatures second_line_unrendered)
  = [[pt 43.7 (-79.4); pt 43.8 (-79.3)]; [pt 43.7 (-79.4); pt 43.8 (-79.3)]].
Proof.
  split; [vm_compute; reflexivity|].
  split; [vm_compute; reflexivity|].
  split; vm_compute; reflexivity.
Qed.

(** C8.  When the edit event arrives for a layer that is a polygon or a
    rectangle and whose ring is now [R2], every registered feature on that
    layer gets the area [calculateArea R2], computed from [R2] alone, and
    the coordinates [R2]; its id, kind, layer and owning layer stay as they
    were.  The registry keeps its length, features on other layers are not
    touched, and no duplicate check is made: the statement has no
    condition on the other entries, so the edit goes through also when
    [R2] repeats the coordinates of another entry. *)
Theorem handleEdit_recomputes (Math_sin : float -> float) (st : MapState)
    (n : nat) (f : DrawnFeature) (o : LayerObject) (R2 : list (LatLng float)) :
  drawnFeatures st !! n = Some f ->
  layerObjects st !! layer f = Some o ->
  instanceof o CPolygon = true ->
  getLatLngs_0 o = R2 ->
  let st' := handleEdit Math_sin (event_for (layer f)) st in
  drawnFeatures st' !! n
  = Some (mkFeature (id f) (type f) (Some (calculateArea Math_sin R2)) R2
            (layer f) (layerType f)) /\
  length (drawnFeatures st') = length (drawnFeatures st) /\
  (forall m g, drawnFeatures st !! m = Some g -> layer g <> layer f ->
               drawnFeatures st' !! m = Some g).
Proof.
  intros Hf Hobj Hpoly Hring st'. subst st'.
  unfold handleEdit, event_for. cbn [ev_layer setDrawnFeatures drawnFeatures].
  split; [|split].
  - rewrite list_lookup_fmap, Hf. cbn [fmap option_fmap option_map].
    f_equal. apply edit_feature_ring with (o := o); assumption.
  - apply length_map.
  - intros m g Hg Hne. rewrite list_lookup_fmap, Hg. cbn [fmap option_fmap option_map].
    f_equal. apply edit_feature_other, Hne.
Qed.

Lemma handleEdit_recomputes_witness :
  let st' := handleEdit sin_ref (event_for 2%nat) second_dragged in
  map coordinates (drawnFeatures second_dragged) = [triangle; triangle_moved] /\
  map coordinates (drawnFeatures st') = [triangle; triangle] /\
  map area (drawnFeatures st')
  = [Some (calculateArea sin_ref triangle); Some (calculateArea sin_ref triangle)] /\
  map id (drawnFeatures st') = ["feature-1"%string; "feature-2"%string].
Proof.
  cbv zeta.
  destruct (handleEdit_recomputes sin_ref second_dragged 1%nat
              (mkFeature "feature-2" polygon (Some (calculateArea sin_ref triangle_moved))
                 triangle_moved 2%nat workArea)
              (LPolygon triangle []) triangle)
    as [Hnew [Hlen Hold]].
  - reflexivity.
  - reflexivity.
  - reflexivity.
  - reflexivity.
  - cbv zeta in *. cbn [layer] in *.
    specialize (Hold 0%nat
                  (mkFeature "feature-1" polygon (Some (calculateArea sin_ref triangle))
                     triangle 1%nat workArea) eq_refl).
    cbn [layer] in Hold. specialize (Hold ltac:(lia)).
    destruct (drawnFeatures (handleEdit sin_ref (event_for 2%nat) second_dragged))
      as [|g0 [|g1 [|g2 rest]]]; try discriminate Hlen.
    cbn in Hnew, Hold. injection Hnew as ->. injection Hold as ->.
    repeat split.
Defined.

(** ** Export *)

(** C9.  The export of a drawn feature swaps every coordinate from the
    internal [{lat, lng}] to [[lng, lat]]: a marker becomes a [Point] with
    coordinates [[lng, lat]], a polyline a [LineString] of [[lng, lat]]
    pairs, and a polygon or rectangle a [Polygon] whose coordinates are
    [[ring]], one outer ring of [[lng, lat]] pairs and no holes.  A marker
    is exported from its first coordinate; the handlers keep one on every
    registered marker ([handleCreate_markers_positioned],
    [handleEdit_markers_positioned]). *)
Theorem copyFeatureGeoJSON_swaps (f : DrawnFeature) :
  (type f = marker -> coordinates f <> []) ->
  copyFeatureGeoJSON f
  = Some (geojson_feature
            match type f with
            | marker => "Point"
            | polyline => "LineString"
            | polygon | rectangle => "Polygon"
            end
            match type f with
            | marker =>
                match coordinates f with
                | c :: _ => JArr [JNum (lng c); JNum (lat c)]
                | [] => JUndefined
                end
            | polyline =>
                JArr (map (fun c => JArr [JNum (lng c); JNum (lat c)]) (coordinates f))
            | polygon | rectangle =>
                JArr [JArr (map (fun c => JArr [JNum (lng c); JNum (lat c)])
                             (coordinates f))]
            end
            (area f)).
Proof.
  intros Hmarker. unfold copyFeatureGeoJSON, geojson_feature.
  destruct (type f); try reflexivity.
  destruct (coordinates f) as [|c rest]; [|reflexivity].
  exfalso. apply Hmarker; reflexivity.
Qed.

Lemma copyFeatureGeoJSON_swaps_witness :
  copyFeatureGeoJSON sample_marker
  = Some (geojson_feature "Point" (JArr [JNum (-79.4)%float; JNum 43.7%float]) None) /\
  copyFeatureGeoJSON
    (mkFeature "feature-1" polygon (Some 447914.13442856399%float) triangle 1%nat workArea)
  = Some (geojson_feature "Polygon"
            (JArr [JArr [JArr [JNum (-79.4)%float; JNum 43.7%float];
                         JArr [JNum (-79.4)%float; JNum 43.71%float];
                         JArr [JNum (-79.39)%float; JNum 43.71%float]]])
            (Some 447914.13442856399%float)).
Proof.
  split.
  - apply (copyFeatureGeoJSON_swaps sample_marker). intros _. discriminate.
  - apply (copyFeatureGeoJSON_swaps
             (mkFeature "feature-1" polygon (Some 447914.13442856399%float)
                triangle 1%nat workArea)).
    intros Habsurd. discriminate Habsurd.
Defined.

(** ** Unit formatter *)

(** C4.  [formatArea] prints a value below 10000 in square metres with two
    decimals and the suffix "m²"; a value from 10000 up to, but not
    including, 1000000 in hectares (the value over 10000) with four
    decimals and the suffix "hectares"; anything else, so every value from
    1000000 on, in square kilometres (the value over 1000000) with two
    decimals and the suffix "km²".  The value 10000 itself is printed in
    hectares and 1000000 itself in square kilometres, and
    [formatArea(5000)] is "5000.00 m²". *)
Theorem formatArea_bands (Number_toString : float -> string) (x : float) :
  (PrimFloat.ltb x 10000 = true ->
   formatArea Number_toString x
   = String.append (toFixed Number_toString x 2) " m²") /\
  (PrimFloat.leb 10000 x = true -> PrimFloat.ltb x 1000000 = true ->
   formatArea Number_toString x
   = String.append (toFixed Number_toString (x / 10000)%float 4) " hectares") /\
  (PrimFloat.ltb x 10000 = false ->
   ~ (PrimFloat.leb 10000 x = true /\ PrimFloat.ltb x 1000000 = true) ->
   formatArea Number_toString x
   = String.append (toFixed Number_toString (x / 1000000)%float 2) " km²") /\
  (PrimFloat.leb 1000000 x = true ->
   formatArea Number_toString x
   = String.append (toFixed Number_toString (x / 1000000)%float 2) " km²") /\
  formatArea Number_toString 10000 = "1.0000 hectares"%string /\
  formatArea Number_toString 1000000 = "1.00 km²"%string /\
  formatArea Number_toString 5000 = "5000.00 m²"%string.
Proof.
  split; [apply formatArea_m2|].
  split.
  { intros Hge Hlt. apply formatArea_hectares; [|exact Hlt].
    apply leb_not_ltb, Hge. }
  split.
  { intros Hlow Hmid. apply formatArea_km2; [exact Hlow|].
    destruct (PrimFloat.ltb x 1000000) eqn:Hlt; [|reflexivity].
    exfalso. apply Hmid. split; [|reflexivity].
    apply (not_ltb_leb 10000 1000000 x Hlow Hlt). reflexivity. }
  split.
  { intros Hge. apply formatArea_km2.
    - apply million_not_below_ten_thousand, Hge.
    - apply leb_not_ltb, Hge. }
  repeat split; vm_compute; reflexivity.
Qed.

Lemma formatArea_bands_witness :
  formatArea exponent_notation_unused 9999.99 = "9999.99 m²"%string /\
  formatArea exponent_notation_unused 12392.02903003451 = "1.2392 hectares"%string /\
  formatArea exponent_notation_unused 2500000 = "2.50 km²"%string.
Proof.
  split; [|split].
  - rewrite (proj1 (formatArea_bands exponent_notation_unused 9999.99)) by reflexivity.
    vm_compute. reflexivity.
  - rewrite (proj1 (proj2 (formatArea_bands exponent_notation_unused 12392.02903003451)))
      by reflexivity.
    vm_compute. reflexivity.
  - rewrite (proj1 (proj2 (proj2 (proj2 (formatArea_bands exponent_notation_unused 2500000)))))
      by reflexivity.
    vm_compute. reflexivity.
Defined.

(* ------------------------------------------------------------------ *)
(** ** More facts about binary64 numbers *)

Section FloatSubFacts.
Local Open Scope float_scope.

Lemma is_finite_spec (x : float) : is_finite x = SFfinite (Prim2SF x).
Proof.
  unfold is_finite, is_nan, is_infinity.
  rewrite !FloatAxioms.eqb_spec, abs_spec.
  change (Prim2SF infinity) with (S754_infinity false).
  destruct (Prim2SF x) as [s|s| |s m e]; try reflexivity.
  - destruct s; reflexivity.
  - unfold SFeqb. cbn [SFabs SFcompare].
    rewrite Z.compare_refl, Pos.compare_cont_refl. destruct s; reflexivity.
Qed.

(** The rounding of a result treats both signs alike. *)
Lemma SFabs_binary_normalize_opp (m e : Z) :
  SFabs (binary_normalize prec emax (- m) e false)
  = SFabs (binary_normalize prec emax m e false).
Proof.
  destruct m as [|p|p]; [reflexivity| |];
    [change (- Z.pos p)%Z with (Z.neg p)|change (- Z.neg p)%Z with (Z.pos p)];
    unfold binary_normalize, binary_round, binary_round_aux;
    destruct (shl_align p e _) as [mz ez];
    destruct (shr_fexp prec emax (Z.pos mz) ez loc_Exact) as [mrs' e'];
    destruct (shr_fexp prec emax _ e' loc_Exact) as [mrs'' e''];
    destruct (shr_m mrs'') as [|q|q]; try reflexivity;
    destruct (e'' <=? emax - prec)%Z; reflexivity.
Qed.

(** [|x - y|] and [|y - x|] are the same number. *)
Lemma abs_sub_comm (x y : float) : abs (x - y) = abs (y - x).
Proof.
  apply Prim2SF_inj. rewrite !abs_spec, !sub_spec. unfold SF64sub.
  destruct (Prim2SF x) as [sx|sx| |sx mx ex], (Prim2SF y) as [sy|sy| |sy my ey];
    try (destruct sx); try (destruct sy); try reflexivity;
    cbn [SFsub]; rewrite (Z.min_comm ey ex);
    match goal with
    | |- SFabs (binary_normalize _ _ (?a - ?b) _ _) = _ =>
        replace (a - b)%Z with (- (b - a))%Z by lia
    end; apply SFabs_binary_normalize_opp.
Qed.

(** A finite number minus itself is zero; anything else minus itself is
    NaN. *)
Lemma sub_diag (x : float) :
  Prim2SF (x - x) = if is_finite x then S754_zero false else S754_nan.
Proof.
  rewrite is_finite_spec, sub_spec. unfold SF64sub.
  destruct (Prim2SF x) as [s|s| |s m e]; try (destruct s); try reflexivity;
    cbn [SFsub SFfinite]; rewrite Z.sub_diag; reflexivity.
Qed.

(** So the distance of a number from itself is below a tolerance exactly
    when the number is finite and the tolerance is positive. *)
Lemma abs_sub_diag_ltb (x t : float) :
  (abs (x - x) <? t) = is_finite x && (0 <? t).
Proof.
  rewrite !ltb_spec, abs_spec, sub_diag.
  change (Prim2SF 0) with (S754_zero false).
  destruct (is_finite x); reflexivity.
Qed.
End FloatSubFacts.

(* ------------------------------------------------------------------ *)
(** ** Order of binary64 numbers *)

Section FloatOrderFacts.
Local Open Scope float_scope.

Lemma SFltb_leb_trans (x t t' : spec_float) :
  SFltb x t = true -> SFleb t t' = true -> SFltb x t' = true.
Proof.
  unfold SFltb, SFleb.
  destruct x as [sx|sx| |sx mx ex], t as [st|st| |st mt et], t' as [su|su| |su mu eu];
    try (destruct sx); try (destruct st); try (destruct su);
    cbn [SFcompare]; try congruence;
    rewrite ?Pos.compare_cont_spec; cbn [Pos.switch_Eq];
    repeat match goal with
           | |- context [(?a ?= ?b)%Z] => destruct (Z.compare_spec a b)
           | |- context [(?a ?= ?b)%positive] => destruct (Pos.compare_spec a b)
           end; cbn [CompOpp Pos.switch_Eq]; intros; try congruence; try lia.
Qed.

Lemma ltb_leb_trans (x t t' : float) :
  (x <? t) = true -> (t <=? t') = true -> (x <? t') = true.
Proof. rewrite !ltb_spec, leb_spec. apply SFltb_leb_trans. Qed.
End FloatOrderFacts.

(* ------------------------------------------------------------------ *)
(** ** The duplicate detector on binary64 numbers *)

Section EqualFloatFacts.
Local Open Scope float_scope.

Lemma within_comm (t : float) (p q : LatLng float) : within t p q <-> within t q p.
Proof.
  unfold within. cbn [nsub nltb Math_abs float_arith].
  rewrite (abs_sub_comm (lat p) (lat q)), (abs_sub_comm (lng p) (lng q)). reflexivity.
Qed.

Lemma areCoordinatesEqual_comm (a b : list (LatLng float)) (t : option float) :
  areCoordinatesEqual a b t = areCoordinatesEqual b a t.
Proof.
  destruct (Nat.eq_dec (length a) (length b)) as [Hlen|Hlen].
  - assert (Hiff : forall a b : list (LatLng float), length a = length b ->
               areCoordinatesEqual a b t = true -> areCoordinatesEqual b a t = true).
    { clear. intros a b Hlen.
      change (areCoordinatesEqual a b t)
        with (areCoordinatesEqual a b (Some (default default_tolerance t))).
      change (areCoordinatesEqual b a t)
        with (areCoordinatesEqual b a (Some (default default_tolerance t))).
      rewrite !areCoordinatesEqual_pointwise by congruence.
      intros Hall i p q Hp Hq. apply within_comm. eauto. }
    destruct (areCoordinatesEqual a b t) eqn:Eab, (areCoordinatesEqual b a t) eqn:Eba;
      try reflexivity.
    + rewrite (Hiff a b Hlen Eab) in Eba. discriminate.
    + rewrite (Hiff b a (eq_sym Hlen) Eba) in Eab. discriminate.
  - rewrite !areCoordinatesEqual_length_ne by congruence. reflexivity.
Qed.

Lemma within_diag (t : float) (p : LatLng float) :
  within t p p <-> finite_point p = true /\ (0 <? t) = true.
Proof.
  unfold within, finite_point. cbn [nsub nltb Math_abs float_arith].
  rewrite !abs_sub_diag_ltb, !andb_true_iff. tauto.
Qed.

Lemma areCoordinatesEqual_diag (a : list (LatLng float)) (t : float) :
  (0 <? t) = true ->
  areCoordinatesEqual a a (Some t) = finite_coordinates a.
Proof.
  intros Ht.
  assert (Hiff : areCoordinatesEqual a a (Some t) = true <-> finite_coordinates a = true).
  { rewrite areCoordinatesEqual_pointwise by reflexivity.
    unfold finite_coordinates. rewrite forallb_forall. split.
    - intros Hall p Hin. apply list_elem_of_In, list_elem_of_lookup in Hin as [i Hi].
      apply (within_diag t p). eauto.
    - intros Hall i p q Hp Hq. assert (q = p) as -> by congruence.
      apply within_diag. split; [|exact Ht].
      apply Hall, list_elem_of_In, list_elem_of_lookup. eauto. }
  destruct (areCoordinatesEqual a a (Some t)), (finite_coordinates a);
    try reflexivity; destruct Hiff as [H1 H2].
  - symmetry. apply H1. reflexivity.
  - apply H2. reflexivity.
Qed.

Lemma isDuplicateFeature_false (c : list (LatLng float)) (fs : list DrawnFeature) :
  isDuplicateFeature c fs = false <->
  forall f, f ∈ fs -> areCoordinatesEqual (coordinates f) c None = false.
Proof.
  rewrite <- not_true_iff_false, isDuplicateFeature_true. split.
  - intros Hno f Hin. apply not_true_iff_false. intros Heq. apply Hno. eauto.
  - intros Hall [f [Hin Heq]]. rewrite (Hall f Hin) in Heq. discriminate.
Qed.
End EqualFloatFacts.

(* ------------------------------------------------------------------ *)
(** ** More facts about the handlers *)

Section HandlerFacts2.
Variable Math_sin : float -> float.

(** What [handleCreate] does with a shape that is no duplicate. *)
Lemma handleCreate_accepted (c : Closure) (i : string) (l : LayerRef)
    (o : LayerObject) (st : MapState) :
  layerObjects st !! l = Some o ->
  drawable o = true ->
  isDuplicateFeature (drawn_coordinates o) (closure_drawnFeatures c) = false ->
  let g := new_feature Math_sin i l o (closure_drawMode c) in
  let st1 := targetLayer_addLayer (layerType g) l (on_click l i st) in
  handleCreate Math_sin c i (event_for l) st
  = register g
      (if instanceof o CPolygon
       then match layerType g with
            | workArea => onPolygonChange (coordinates g) (area g) st1
            | record => st1
            end
       else st1).
Proof.
  intros Hobj Hdraw Hdup. unfold handleCreate, event_for. cbn [ev_layer].
  rewrite Hobj. cbn [from_option Datatypes.id on_click]. cbv zeta.
  unfold new_feature.
  destruct o as [outer holes|outer holes|latlngs|latlng|];
    cbn [instanceof drawn_coordinates layerType coordinates area] in *;
    try discriminate Hdraw; rewrite Hdup; reflexivity.
Qed.

(** Every creation event either leaves the registry as it is or appends
    the entry of a shape that is no duplicate. *)
Lemma handleCreate_cases (c : Closure) (i : string) (e : option PmEvent)
    (st : MapState) :
  drawnFeatures (handleCreate Math_sin c i e st) = drawnFeatures st
  \/ exists l o,
       layerObjects st !! l = Some o /\ drawable o = true
       /\ isDuplicateFeature (drawn_coordinates o) (closure_drawnFeatures c) = false
       /\ drawnFeatures (handleCreate Math_sin c i e st)
          = drawnFeatures st ++ [new_feature Math_sin i l o (closure_drawMode c)].
Proof.
  destruct e as [[[l|]]|]; try (left; reflexivity).
  change (Some {| ev_layer := Some l |}) with (event_for l).
  destruct (layerObjects st !! l) as [o|] eqn:Hobj.
  - destruct (drawable o) eqn:Hdraw.
    + destruct (isDuplicateFeature (drawn_coordinates o) (closure_drawnFeatures c))
        eqn:Hdup.
      * left. rewrite (handleCreate_duplicate Math_sin c i l o st Hobj Hdraw Hdup).
        reflexivity.
      * right. exists l, o. repeat (split; [assumption|]).
        rewrite (handleCreate_accepted c i l o st Hobj Hdraw Hdup). cbv zeta.
        destruct (instanceof o CPolygon); [|reflexivity].
        destruct (layerType _); reflexivity.
    + left. unfold handleCreate, event_for. cbn [ev_layer]. rewrite Hobj.
      destruct o; try discriminate Hdraw. reflexivity.
  - left. unfold handleCreate, event_for. cbn [ev_layer]. rewrite Hobj. reflexivity.
Qed.

Lemma filter_keeps_all {T : Type} (P : T -> Prop) `{!forall x, Decision (P x)}
    (l : list T) :
  (forall x, x ∈ l -> P x) -> filter P l = l.
Proof.
  induction l as [|x l IH]; intros Hall; [reflexivity|].
  rewrite filter_cons_True by (apply Hall; left).
  f_equal. apply IH. intros y Hy. apply Hall. right. exact Hy.
Qed.

Lemma handleRemove_features (l : LayerRef) (st : MapState) :
  drawnFeatures (handleRemove (event_for l) st)
  = filter (fun f => negb (Nat.eqb (layer f) l) = true) (drawnFeatures st).
Proof.
  unfold handleRemove, event_for. cbn [ev_layer].
  destruct (filter _ (drawnFeatures st)); reflexivity.
Qed.

Lemma handleRemove_features_any (e : option PmEvent) (st : MapState) :
  exists P : DrawnFeature -> bool,
    drawnFeatures (handleRemove e st) = filter (fun f => P f = true) (drawnFeatures st).
Proof.
  destruct e as [[[l|]]|].
  - eexists. apply handleRemove_features.
  - exists (fun _ => true). cbn. symmetry. apply filter_keeps_all. reflexivity.
  - exists (fun _ => true). cbn. symmetry. apply filter_keeps_all. reflexivity.
Qed.
Lemma handleRemove_layerObjects (e : option PmEvent) (st : MapState) :
  layerObjects (handleRemove e st) = layerObjects st.
Proof.
  destruct e as [[[l|]]|]; try reflexivity.
  unfold handleRemove. cbn [ev_layer]. cbv zeta.
  destruct (filter _ (drawnFeatures st)); reflexivity.
Qed.
End HandlerFacts2.

(* ------------------------------------------------------------------ *)
(** ** Invariants of the registry *)

Section Invariants.
Variable Math_sin : float -> float.

Lemma duplicate_free_snoc (fs : list DrawnFeature) (g : DrawnFeature) :
  duplicate_free (fs ++ [g]) <->
  duplicate_free fs /\
  forall f, f ∈ fs -> areCoordinatesEqual (coordinates f) (coordinates g) None = false.
Proof.
  induction fs as [|f fs IH]; cbn [app duplicate_free].
  - split.
    + intros _. split; [exact I|]. intros f Hf. inversion Hf.
    + intros _. split; [|exact I]. intros h Hh. inversion Hh.
  - rewrite IH. split.
    + intros [Hf [Hfree Hg]]. split; [split; [|exact Hfree]|].
      * intros h Hh. apply Hf, elem_of_app. left. exact Hh.
      * intros h Hh. apply elem_of_cons in Hh as [->|Hh]; [|apply Hg, Hh].
        apply Hf, elem_of_app. right. left.
    + intros [[Hf Hfree] Hg]. split; [|split; [exact Hfree|]].
      * intros h Hh. apply elem_of_app in Hh as [Hh|Hh]; [apply Hf, Hh|].
        apply list_elem_of_singleton in Hh as ->. apply Hg. left.
      * intros h Hh. apply Hg. right. exact Hh.
Qed.

Lemma duplicate_free_filter (P : DrawnFeature -> Prop) `{!forall x, Decision (P x)}
    (fs : list DrawnFeature) :
  duplicate_free fs -> duplicate_free (filter P fs).
Proof.
  induction fs as [|f fs IH]; [intros _; exact I|].
  cbn [duplicate_free]. intros [Hf Hfree]. rewrite filter_cons.
  destruct (decide (P f)); [|apply IH, Hfree].
  cbn [duplicate_free]. split; [|apply IH, Hfree].
  intros g Hg. apply list_elem_of_filter in Hg as [_ Hg]. apply Hf, Hg.
Qed.

(** A handler whose closure holds every feature of the current registry
    keeps the registry free of duplicates. *)
Lemma handleCreate_duplicate_free (c : Closure) (i : string) (e : option PmEvent)
    (st : MapState) :
  (forall f, f ∈ drawnFeatures st -> f ∈ closure_drawnFeatures c) ->
  duplicate_free (drawnFeatures st) ->
  duplicate_free (drawnFeatures (handleCreate Math_sin c i e st)).
Proof.
  intros Hseen Hfree.
  destruct (handleCreate_cases Math_sin c i e st) as [->|[l [o [_ [_ [Hdup ->]]]]]];
    [exact Hfree|].
  apply duplicate_free_snoc. split; [exact Hfree|].
  intros f Hf. apply (proj1 (isDuplicateFeature_false _ _) Hdup f), Hseen, Hf.
Qed.

Lemma handleRemove_duplicate_free (e : option PmEvent) (st : MapState) :
  duplicate_free (drawnFeatures st) ->
  duplicate_free (drawnFeatures (handleRemove e st)).
Proof.
  intros Hfree. destruct (handleRemove_features_any e st) as [P ->].
  apply duplicate_free_filter, Hfree.
Qed.

Lemma clearLayerFeatures_features (t : LayerType) (st : MapState) :
  drawnFeatures (clearLayerFeatures t st)
  = filter (fun f => layerType_differs t f = true) (drawnFeatures st).
Proof. destruct t; reflexivity. Qed.

Lemma same_class_instanceof (o o' : LayerObject) (c : LayerClass) :
  same_class o o' = true -> instanceof o' c = instanceof o c.
Proof. destruct o, o'; try discriminate; reflexivity. Qed.

Lemma new_feature_consistent (objects : gmap LayerRef LayerObject) (i : string)
    (l : LayerRef) (o : LayerObject) (m : option DrawMode) :
  objects !! l = Some o -> drawable o = true ->
  feature_consistent objects (new_feature Math_sin i l o m).
Proof.
  intros Hobj Hdraw. unfold feature_consistent, new_feature. cbn [layer type area].
  rewrite Hobj.
  destruct o as [outer holes|outer holes|latlngs|latlng|]; cbn [instanceof];
    try discriminate Hdraw; eauto.
Qed.

Lemma edit_feature_consistent (objects : gmap LayerRef LayerObject) (l : LayerRef)
    (f : DrawnFeature) :
  feature_consistent objects f ->
  feature_consistent objects (edit_feature Math_sin objects l f).
Proof.
  unfold feature_consistent, edit_feature. intros Hf.
  destruct (Nat.eqb (layer f) l); [|exact Hf].
  destruct (objects !! layer f) as [o|] eqn:Hobj; [|contradiction].
  cbn [from_option Datatypes.id].
  destruct (type f) eqn:Hty.
  - destruct Hf as [Hpoly _]. rewrite Hpoly. cbn [orb layer type area].
    rewrite Hobj. eauto.
  - destruct Hf as [[latlngs ->] Harea]. cbn [instanceof orb layer type area].
    rewrite Hobj. eauto.
  - destruct Hf as [[latlng ->] [Harea Hlen]].
    cbn [instanceof orb layer type area coordinates]. rewrite Hobj.
    split; [eauto|]. split; [exact Harea|]. reflexivity.
  - contradiction.
Qed.

Lemma step_consistent (p p' : MapState * Closure) :
  step Math_sin p p' -> registry_consistent (fst p) -> registry_consistent (fst p').
Proof.
  intros Hstep Hc. destruct Hstep as
    [l o st c Hfresh|l o o' st c Hobj Hsame|i e st c|e st c|e st c|t st c|st c|m st c
    |st c]; cbn [fst] in *.
  - intros f Hf. specialize (Hc f Hf). unfold feature_consistent in *.
    cbn [plugin_draw drawnFeatures layerObjects] in *.
    destruct (decide (layer f = l)) as [E|Hne].
    + rewrite E, Hfresh in Hc. contradiction.
    + rewrite lookup_insert_ne by congruence. exact Hc.
  - intros f Hf. specialize (Hc f Hf). unfold feature_consistent in *.
    cbn [plugin_edit drawnFeatures layerObjects] in *.
    destruct (decide (layer f = l)) as [E|Hne].
    + rewrite E in *. rewrite lookup_insert_eq. rewrite Hobj in Hc.
      destruct (type f); try exact Hc.
      * rewrite (same_class_instanceof o o' CPolygon Hsame). exact Hc.
      * destruct Hc as [[latlngs ->] Harea]. destruct o'; try discriminate Hsame. eauto.
      * destruct Hc as [[latlng ->] Hrest]. destruct o'; try discriminate Hsame. eauto.
    + rewrite lookup_insert_ne by congruence. exact Hc.
  - intros f Hf. unfold feature_consistent. rewrite handleCreate_layerObjects.
    destruct (handleCreate_cases Math_sin c i e st)
      as [Hsame|[l [o [Hobj [Hdraw [_ Hadd]]]]]].
    + rewrite Hsame in Hf. apply Hc, Hf.
    + rewrite Hadd in Hf. apply elem_of_app in Hf as [Hf|Hf]; [apply Hc, Hf|].
      apply list_elem_of_singleton in Hf as ->.
      apply new_feature_consistent; assumption.
  - intros f Hf. destruct e as [[[l|]]|]; try (apply Hc, Hf).
    cbn in Hf. apply list_elem_of_fmap in Hf as [g [-> Hg]].
    apply (edit_feature_consistent (layerObjects st) l g), Hc, Hg.
  - intros f Hf. destruct (handleRemove_features_any e st) as [P HP].
    rewrite HP in Hf. apply list_elem_of_filter in Hf as [_ Hf].
    unfold feature_consistent. rewrite handleRemove_layerObjects. apply Hc, Hf.
  - intros f Hf. rewrite clearLayerFeatures_features in Hf.
    apply list_elem_of_filter in Hf as [_ Hf].
    assert (Hobjs : layerObjects (clearLayerFeatures t st) = layerObjects st)
      by (destruct t; reflexivity).
    unfold feature_consistent. rewrite Hobjs. apply Hc, Hf.
  - intros f Hf. inversion Hf.
  - exact Hc.
  - exact Hc.
Qed.

Lemma reachable_consistent (st : MapState) :
  reachable Math_sin st -> registry_consistent st.
Proof.
  intros [c Hrtc].
  change st with (fst (st, c)). revert Hrtc. generalize (st, c).
  apply (rtc_ind_r (fun p => registry_consistent (fst p))
           (initial_state, render initial_state)).
  - intros f Hf. inversion Hf.
  - intros p p' _ Hstep IH. eapply step_consistent; eassumption.
Qed.
End Invariants.

(* ------------------------------------------------------------------ *)
(** ** Facts about the georeferencing capture *)

Section GeorefFacts.

Lemma georef_run_snoc (mode : GeorefMode) (evs : list GeorefEvent) (ev : GeorefEvent)
    (st : GeorefState) :
  georef_run mode (evs ++ [ev]) st = georef_handle mode (georef_run mode evs st) ev.
Proof. unfold georef_run. rewrite fold_left_app. reflexivity. Qed.

Lemma georef_run_app (mode : GeorefMode) (evs evs' : list GeorefEvent)
    (st : GeorefState) :
  georef_run mode (evs ++ evs') st = georef_run mode evs' (georef_run mode evs st).
Proof. unfold georef_run. apply fold_left_app. Qed.

(** After one or more clicks in line or polygon mode, with nothing in
    progress before: the group holds what it held plus one layer made from
    all the points clicked. *)
Lemma georef_clicks (mode : GeorefMode) (ps : list (LatLng float)) (p : LatLng float)
    (st : GeorefState) :
  mode <> georefPoint ->
  currentLayer st = None -> points st = [] ->
  (forall r, nextStamp st <= r -> georefLayer st !! r = None)%nat ->
  georef_run mode (map GeorefClick (ps ++ [p])) st
  = mkGeoref (Some (nextStamp st + length ps)%nat) (ps ++ [p])
      (<[ (nextStamp st + length ps)%nat := georef_shape mode (ps ++ [p]) ]>
         (georefLayer st))
      (S (nextStamp st + length ps)) (georefCompleted st).
Proof.
  intros Hmode Hcur Hpts Hfresh. revert p.
  induction ps as [|q ps IH] using rev_ind; intros p.
  - destruct st as [cur pts group stamp done]. cbn in *. subst cur pts.
    rewrite Nat.add_0_r. destruct mode; [contradiction|reflexivity|reflexivity].
  - rewrite map_app. cbn [map]. rewrite georef_run_snoc, (IH q). cbn [georef_handle].
    rewrite length_app. cbn [length].
    replace (nextStamp st + (length ps + 1))%nat with (S (nextStamp st + length ps)) by lia.
    unfold georef_handleClick.
    cbn [currentLayer points georefLayer nextStamp georefCompleted].
    rewrite delete_insert_eq, delete_id by (apply Hfresh; lia).
    destruct mode; [contradiction|reflexivity|reflexivity].
Qed.
End GeorefFacts.

(* ------------------------------------------------------------------ *)
(** ** Zero summands on binary64 numbers *)

Section FloatZeroFacts.
Local Open Scope float_scope.

Lemma mul_zero_l (z w : float) :
  SFzero (Prim2SF z) = true -> is_finite w = true -> SFzero (Prim2SF (z * w)) = true.
Proof.
  rewrite is_finite_spec, mul_spec. unfold SF64mul.
  destruct (Prim2SF z) as [sz|sz| |sz mz ez]; try discriminate.
  destruct (Prim2SF w) as [sw|sw| |sw mw ew]; try discriminate; reflexivity.
Qed.

Lemma div_zero_l (z w : float) :
  SFzero (Prim2SF z) = true -> SFzero (Prim2SF w) = false -> is_finite w = true ->
  SFzero (Prim2SF (z / w)) = true.
Proof.
  rewrite is_finite_spec, div_spec. unfold SF64div.
  destruct (Prim2SF z) as [sz|sz| |sz mz ez]; try discriminate.
  destruct (Prim2SF w) as [sw|sw| |sw mw ew]; try discriminate; reflexivity.
Qed.

Lemma abs_zero (z : float) : SFzero (Prim2SF z) = true -> abs z = 0.
Proof.
  intros Hz. apply Prim2SF_inj. rewrite abs_spec.
  destruct (Prim2SF z) as [sz|sz| |sz mz ez]; try discriminate. reflexivity.
Qed.

(** Adding a zero changes nothing, except that it can change the sign of
    a zero. *)
Lemma add_zero_r (s z : float) :
  SFzero (Prim2SF z) = true ->
  s + z = s \/ (SFzero (Prim2SF s) = true /\ SFzero (Prim2SF (s + z)) = true).
Proof.
  intros Hz.
  destruct (Prim2SF z) as [sz|sz| |sz mz ez] eqn:Ez; try discriminate.
  destruct (Prim2SF s) as [ss|ss| |ss ms es] eqn:Es.
  - right. split; [reflexivity|]. rewrite add_spec, Ez, Es. unfold SF64add.
    destruct ss, sz; reflexivity.
  - left. apply Prim2SF_inj. rewrite add_spec, Ez, Es. reflexivity.
  - left. apply Prim2SF_inj. rewrite add_spec, Ez, Es. reflexivity.
  - left. apply Prim2SF_inj. rewrite add_spec, Ez, Es. reflexivity.
Qed.

(** The area computed from a sum that is a zero of either sign. *)
Lemma area_of_zero_sum (s : float) :
  SFzero (Prim2SF s) = true -> abs (s * 6378137 * 6378137 / 2) = 0.
Proof.
  intros Hs. apply abs_zero, div_zero_l; try reflexivity.
  apply mul_zero_l; [|reflexivity]. apply mul_zero_l; [exact Hs|reflexivity].
Qed.

Lemma fold_left_snoc {X Y : Type} (f : X -> Y -> X) (l : list Y) (y : Y) (z : X) :
  fold_left f (l ++ [y]) z = f (fold_left f l z) y.
Proof. rewrite fold_left_app. reflexivity. Qed.

Lemma cyclic_pairs_repeat_first {T : Type} (y : LatLng T) (ys : list (LatLng T)) :
  cyclic_pairs (y :: ys ++ [y]) = cyclic_pairs (y :: ys) ++ [(y, y)].
Proof.
  rewrite !cyclic_pairs_closed.
  replace (y :: (ys ++ [y]) ++ [y]) with ((y :: ys) ++ [y; y])
    by (cbn [app]; rewrite <- app_assoc; reflexivity).
  rewrite adjacent_snoc. reflexivity.
Qed.

Lemma calculateArea_float_closed (Math_sin : float -> float) (x : LatLng float)
    (xs : list (LatLng float)) :
  (3 <= length (x :: xs))%nat ->
  is_finite (toRad (lng x)) = true ->
  is_finite (2 + Math_sin (toRad (lat x)) + Math_sin (toRad (lat x))) = true ->
  calculateArea Math_sin (x :: xs ++ [x]) = calculateArea Math_sin (x :: xs).
Proof.
  intros Hlen Hlng Hw.
  rewrite !calculateArea_long by (cbn [length] in *; rewrite ?length_app; cbn; lia).
  cbn [map]. rewrite map_app. cbn [map].
  set (y := toRadPoint x) in *. set (ys := map toRadPoint xs).
  unfold excess_sum at 1. rewrite cyclic_pairs_repeat_first, fold_left_snoc.
  fold (excess_sum Math_sin (y :: ys)). set (S := excess_sum Math_sin (y :: ys)).
  cbn [fst snd].
  set (z := ((lng y - lng y) * (lit 2 + Math_sin (lat y) + Math_sin (lat y)))%num).
  assert (Hz : SFzero (Prim2SF z) = true).
  { subst z. apply mul_zero_l.
    - cbn [nsub float_arith]. rewrite sub_diag.
      subst y. cbn [lng toRadPoint]. rewrite Hlng. reflexivity.
    - exact Hw. }
  change (nadd S z) with (S + z).
  change (Math_abs (?a * EARTH_RADIUS * EARTH_RADIUS / two)%num)
    with (abs (a * 6378137 * 6378137 / 2)).
  destruct (add_zero_r S z Hz) as [->|[HS HSz]]; [reflexivity|].
  rewrite !area_of_zero_sum by assumption. reflexivity.
Qed.
End FloatZeroFacts.

(* ------------------------------------------------------------------ *)
(** * Further properties of the code *)

(** ** Duplicate detector *)

(** X1.  On binary64 numbers the comparison does not depend on the order
    of its two sequences, so neither does the duplicate test depend on
    which of two shapes was registered first. *)
Theorem areCoordinatesEqual_symmetric (a b : list (LatLng float)) (t : option float) :
  areCoordinatesEqual a b t = areCoordinatesEqual b a t /\
  forall fs : list DrawnFeature,
    isDuplicateFeature a fs
    = existsb (fun f => areCoordinatesEqual a (coordinates f) None) fs.
Proof.
  split; [apply areCoordinatesEqual_comm|].
  intros fs. unfold isDuplicateFeature.
  induction fs as [|f fs IH]; [reflexivity|].
  cbn [existsb]. rewrite IH, (areCoordinatesEqual_comm (coordinates f) a). reflexivity.
Qed.

(** X2.  A coordinate sequence compares equal to itself, under the default
    tolerance or any positive one, exactly when all its latitudes and
    longitudes are finite: the distance of an infinite number or of NaN
    from itself is NaN, which is below no tolerance. *)
Theorem areCoordinatesEqual_self (a : list (LatLng float)) :
  areCoordinatesEqual a a None = finite_coordinates a /\
  forall t : float, PrimFloat.ltb 0 t = true ->
                    areCoordinatesEqual a a (Some t) = finite_coordinates a.
Proof.
  split; [|intros t Ht; apply areCoordinatesEqual_diag, Ht].
  apply (areCoordinatesEqual_diag a default_tolerance). reflexivity.
Qed.

(** X3.  A freshly drawn shape whose coordinates are exactly those of a
    feature in the registry that the handler holds, all of them finite, is
    always rejected: the registry stays as it is and the shape is taken
    off the map.  With the closure of the current state this is every
    registered feature. *)
Theorem handleCreate_rejects_identical (Math_sin : float -> float) (c : Closure)
    (st : MapState) (i : string) (l : LayerRef) (o : LayerObject) (f : DrawnFeature) :
  layerObjects st !! l = Some o ->
  drawable o = true ->
  f ∈ closure_drawnFeatures c ->
  coordinates f = drawn_coordinates o ->
  finite_coordinates (drawn_coordinates o) = true ->
  drawnFeatures (handleCreate Math_sin c i (event_for l) st) = drawnFeatures st /\
  (l ∉ onMap (handleCreate Math_sin c i (event_for l) st)).
Proof.
  intros Hobj Hdraw Hin Hsame Hfin.
  assert (Hdup : isDuplicateFeature (drawn_coordinates o) (closure_drawnFeatures c) = true).
  { apply isDuplicateFeature_true. exists f. split; [exact Hin|].
    rewrite Hsame. rewrite <- Hfin.
    apply (areCoordinatesEqual_diag (drawn_coordinates o) default_tolerance).
    reflexivity. }
  rewrite (handleCreate_duplicate Math_sin c i l o st Hobj Hdraw Hdup).
  split; [reflexivity|].
  cbn [map_removeLayer on_click onMap].
  rewrite not_elem_of_difference. right. apply elem_of_singleton. reflexivity.
Qed.

Lemma handleCreate_rejects_identical_witness :
  drawnFeatures
    (handleCreate sin_ref (render one_polygon) "feature-2" (event_for 2%nat)
       (plugin_draw 2%nat (LPolygon triangle []) one_polygon))
  = drawnFeatures one_polygon.
Proof.
  apply (handleCreate_rejects_identical sin_ref (render one_polygon)
           (plugin_draw 2%nat (LPolygon triangle []) one_polygon) "feature-2" 2%nat
           (LPolygon triangle [])
           (mkFeature "feature-1" polygon (Some (calculateArea sin_ref triangle))
              triangle 1%nat workArea)).
  - reflexivity.
  - reflexivity.
  - vm_compute. left.
  - reflexivity.
  - vm_compute. reflexivity.
Defined.

(** ** Tolerance *)

(** X16.  Two sequences that compare equal under a tolerance compare equal
    under every tolerance that is at least as large. *)
Theorem areCoordinatesEqual_wider_tolerance (a b : list (LatLng float)) (t t' : float) :
  PrimFloat.leb t t' = true ->
  areCoordinatesEqual a b (Some t) = true ->
  areCoordinatesEqual a b (Some t') = true.
Proof.
  intros Hle Heq.
  destruct (Nat.eq_dec (length a) (length b)) as [Hlen|Hlen].
  - rewrite areCoordinatesEqual_pointwise in * by exact Hlen.
    intros i p q Hp Hq. destruct (Heq i p q Hp Hq) as [Hlat Hlng].
    split; cbn [nltb float_arith] in *; eapply ltb_leb_trans; eassumption.
  - rewrite areCoordinatesEqual_length_ne in Heq by exact Hlen. discriminate Heq.
Qed.

Lemma areCoordinatesEqual_wider_tolerance_witness :
  areCoordinatesEqual triangle triangle_nearby (Some 0.001%float) = true.
Proof.
  apply (areCoordinatesEqual_wider_tolerance triangle triangle_nearby
           0.000001%float 0.001%float).
  - vm_compute. reflexivity.
  - vm_compute. reflexivity.
Defined.

(** ** Registry: creation *)

(** X4.  A drawn shape of one of the handled classes that is no duplicate
    of a feature in the registry that the handler holds is registered as
    the last entry, after the entries of the current registry, with the
    given id, its layer, the coordinates read off the layer, and the
    owning layer of the draw mode that the handler holds: [record] in
    record mode and [workArea] in every other mode, edit mode and no mode
    included.  It has an area exactly when the layer is a polygon.  The
    new entry is selected, its layer joins the group of its owning layer
    and no other, and the parent is told only of a polygon on the
    work-area layer. *)
Theorem handleCreate_registers (Math_sin : float -> float) (c : Closure) (st : MapState)
    (i : string) (l : LayerRef) (o : LayerObject) :
  layerObjects st !! l = Some o ->
  drawable o = true ->
  isDuplicateFeature (drawn_coordinates o) (closure_drawnFeatures c) = false ->
  let st' := handleCreate Math_sin c i (event_for l) st in
  exists g,
    drawnFeatures st' = drawnFeatures st ++ [g] /\
    id g = i /\ layer g = l /\ coordinates g = drawn_coordinates o /\
    layerType g = target_of (closure_drawMode c) /\
    (is_Some (area g) <-> instanceof o CPolygon = true) /\
    selectedFeatureId st' = Some i /\
    l ∈ onMap st' /\
    group_of (layerType g) st' = group_of (layerType g) st ∪ {[ l ]} /\
    (forall t, t <> layerType g -> group_of t st' = group_of t st) /\
    polygonChanges st'
    = polygonChanges st ++
      (if instanceof o CPolygon
       then match layerType g with
            | workArea => [(coordinates g, area g)]
            | record => []
            end
       else []).
Proof.
  intros Hobj Hdraw Hdup st'. subst st'.
  rewrite (handleCreate_accepted Math_sin c i l o st Hobj Hdraw Hdup). cbv zeta.
  exists (new_feature Math_sin i l o (closure_drawMode c)).
  unfold new_feature. cbn [layerType id layer coordinates area target_of].
  assert (Hon : forall s : gset LayerRef, l ∈ s ∪ {[ l ]}).
  { intros s. apply elem_of_union. right. apply elem_of_singleton. reflexivity. }
  assert (Hnil : forall x : list (list (LatLng float) * option float), x = x ++ [])
    by (intros x; rewrite app_nil_r; reflexivity).
  assert (Hsome : forall x : float, is_Some (Some x) <-> true = true)
    by (intros x; split; eauto).
  assert (Hnone : is_Some (@None float) <-> false = true).
  { split; [intros [x Hx]|intros Hx]; discriminate. }
  destruct (instanceof o CPolygon);
    destruct (closure_drawMode c) as [[ | | ]|];
    (split; [reflexivity|]); (split; [reflexivity|]); (split; [reflexivity|]);
    (split; [reflexivity|]); (split; [reflexivity|]);
    (split; [first [apply Hsome | exact Hnone]|]);
    (split; [reflexivity|]); (split; [apply Hon|]); (split; [reflexivity|]);
    (split; [intros [|] Ht; first [contradiction | reflexivity]|]);
    first [reflexivity | apply Hnil].
Qed.

Lemma handleCreate_registers_witness :
  let st' := handleCreate sin_ref (render line_drawn) "feature-2" (event_for 2%nat)
               line_drawn in
  exists g,
    drawnFeatures st' = drawnFeatures line_drawn ++ [g] /\
    id g = "feature-2"%string /\ layer g = 2%nat /\ coordinates g = sample_line /\
    layerType g = record /\
    (is_Some (area g) <-> false = true) /\
    selectedFeatureId st' = Some "feature-2"%string /\
    2%nat ∈ onMap st' /\
    recordLayer st' = recordLayer line_drawn ∪ {[ 2%nat ]} /\
    (forall t, t <> layerType g -> group_of t st' = group_of t line_drawn) /\
    polygonChanges st' = polygonChanges line_drawn ++ [].
Proof.
  cbv zeta.
  destruct (handleCreate_registers sin_ref (render line_drawn) line_drawn "feature-2"
              2%nat (LPolyline sample_line))
    as [g [H1 [H2 [H3 [H4 [H5 [H6 [H7 [H8 [H9 [H10 H11]]]]]]]]]]].
  - reflexivity.
  - reflexivity.
  - vm_compute. reflexivity.
  - exists g. cbn [instanceof] in *.
    change (target_of (closure_drawMode (render line_drawn))) with record in H5.
    rewrite H5 in H9. cbn [group_of] in H9.
    repeat (split; [assumption|]). assumption.
Defined.

(** X5.  A drawn rectangle passes the class test for polygons, which comes
    first (in the mapping library a rectangle is a polygon), so when it is
    no duplicate of a feature in the registry that the handler holds, it
    is registered with kind [polygon] and with its area; no state that the
    component can reach holds an entry of kind [rectangle]. *)
Theorem rectangle_registered_as_polygon (Math_sin : float -> float) :
  (forall c st i l ring holes,
      layerObjects st !! l = Some (LRectangle ring holes) ->
      isDuplicateFeature ring (closure_drawnFeatures c) = false ->
      drawnFeatures (handleCreate Math_sin c i (event_for l) st)
      = drawnFeatures st ++
        [mkFeature i polygon (Some (calculateArea Math_sin ring)) ring l
           (target_of (closure_drawMode c))]) /\
  (forall st, reachable Math_sin st ->
              forall f, f ∈ drawnFeatures st -> type f <> rectangle).
Proof.
  split.
  - intros c st i l ring holes Hobj Hdup.
    assert (Hdup' : isDuplicateFeature (drawn_coordinates (LRectangle ring holes))
                      (closure_drawnFeatures c) = false).
    { cbn [drawn_coordinates instanceof getLatLngs_0]. rewrite plain_coordinates_id.
      exact Hdup. }
    rewrite (handleCreate_accepted Math_sin c i l _ st Hobj eq_refl Hdup'). cbv zeta.
    unfold new_feature. cbn [instanceof drawn_coordinates getLatLngs_0 layerType].
    rewrite plain_coordinates_id.
    destruct (closure_drawMode c) as [[ | | ]|]; reflexivity.
  - intros st Hreach f Hf Hty.
    pose proof (reachable_consistent Math_sin st Hreach f Hf) as Hc.
    unfold feature_consistent in Hc.
    destruct (layerObjects st !! layer f); [|contradiction].
    rewrite Hty in Hc. contradiction.
Qed.

(** ** Registry: removal and clearing *)

(** X6.  The removal event for a layer takes out of the registry exactly
    the entries on that layer and keeps the others in their order; when no
    entry is on the layer the registry is unchanged.  The parent is told
    [([], null)] exactly when the registry is empty afterwards, so also
    when it was empty before, and not when a polygon is removed while
    other entries remain.  The selection is never cleared, even when the
    selected entry is the one removed. *)
Theorem handleRemove_spec (l : LayerRef) (st : MapState) :
  let st' := handleRemove (event_for l) st in
  (forall g, g ∈ drawnFeatures st' <-> g ∈ drawnFeatures st /\ layer g <> l) /\
  sublist (drawnFeatures st') (drawnFeatures st) /\
  ((forall g, g ∈ drawnFeatures st -> layer g <> l) ->
   drawnFeatures st' = drawnFeatures st) /\
  polygonChanges st'
  = polygonChanges st ++
    match drawnFeatures st' with [] => [([], None)] | _ :: _ => [] end /\
  selectedFeatureId st' = selectedFeatureId st /\
  onMap st' = onMap st /\
  workAreaLayer st' = workAreaLayer st /\ recordLayer st' = recordLayer st.
Proof.
  cbv zeta.
  assert (Hne : forall g, negb (layer g =? l)%nat = true <-> layer g <> l).
  { intros g. rewrite negb_true_iff. apply Nat.eqb_neq. }
  split; [|split; [|split]].
  - intros g. rewrite handleRemove_features, list_elem_of_filter, Hne. tauto.
  - rewrite handleRemove_features. apply sublist_filter.
  - intros Hall. rewrite handleRemove_features. apply filter_keeps_all.
    intros g Hg. apply Hne, Hall, Hg.
  - unfold handleRemove, event_for. cbn [ev_layer]. cbv zeta.
    destruct (filter _ (drawnFeatures st)); cbn; repeat split.
    rewrite app_nil_r. reflexivity.
Qed.

(** X7.  Registering a shape and then removing its layer gives back the
    registry as it was, when no earlier entry is on that layer.  The shape
    is registered when it is no duplicate of a feature in the registry
    that the handler holds. *)
Theorem create_then_remove (Math_sin : float -> float) (c : Closure) (st : MapState)
    (i : string) (l : LayerRef) (o : LayerObject) :
  layerObjects st !! l = Some o ->
  drawable o = true ->
  isDuplicateFeature (drawn_coordinates o) (closure_drawnFeatures c) = false ->
  (forall f, f ∈ drawnFeatures st -> layer f <> l) ->
  length (drawnFeatures (handleCreate Math_sin c i (event_for l) st))
  = S (length (drawnFeatures st)) /\
  drawnFeatures (handleRemove (event_for l) (handleCreate Math_sin c i (event_for l) st))
  = drawnFeatures st.
Proof.
  intros Hobj Hdraw Hdup Hother.
  assert (Hadd : drawnFeatures (handleCreate Math_sin c i (event_for l) st)
                 = drawnFeatures st ++ [new_feature Math_sin i l o (closure_drawMode c)]).
  { rewrite (handleCreate_accepted Math_sin c i l o st Hobj Hdraw Hdup). cbv zeta.
    destruct (instanceof o CPolygon); [|reflexivity].
    destruct (layerType _); reflexivity. }
  rewrite handleRemove_features, Hadd. split.
  - rewrite length_app. cbn [length]. lia.
  - rewrite filter_app, filter_cons_False, filter_nil, app_nil_r.
    + apply filter_keeps_all. intros f Hf.
      apply negb_true_iff, Nat.eqb_neq, Hother, Hf.
    + unfold new_feature. cbn [layer]. rewrite Nat.eqb_refl. discriminate.
Qed.

Lemma create_then_remove_witness :
  length (drawnFeatures polygon_and_line) = 2%nat /\
  drawnFeatures (handleRemove (event_for 2%nat) polygon_and_line)
  = drawnFeatures one_polygon.
Proof.
  destruct (create_then_remove sin_ref (render line_drawn) line_drawn "feature-2" 2%nat
              (LPolyline sample_line))
    as [Hlen Hback].
  - reflexivity.
  - reflexivity.
  - vm_compute. reflexivity.
  - intros f Hf. vm_compute in Hf. apply list_elem_of_singleton in Hf as ->.
    cbn. lia.
  - split; [exact Hlen|exact Hback].
Defined.

(** X8.  Clearing one layer removes from the registry exactly the entries
    owned by that layer and keeps those of the other layer in their order;
    it empties that layer's group, takes its members off the map, leaves
    the other group alone and clears the selection.  Only clearing the
    work-area layer tells the parent.  Clearing a second time changes
    nothing in the registry. *)
Theorem clearLayerFeatures_spec (t : LayerType) (st : MapState) :
  let st' := clearLayerFeatures t st in
  (forall g, g ∈ drawnFeatures st' <-> g ∈ drawnFeatures st /\ layerType g <> t) /\
  sublist (drawnFeatures st') (drawnFeatures st) /\
  group_of t st' = ∅ /\
  (forall u, u <> t -> group_of u st' = group_of u st) /\
  onMap st' = onMap st ∖ group_of t st /\
  selectedFeatureId st' = None /\
  polygonChanges st'
  = polygonChanges st ++ match t with workArea => [([], None)] | record => [] end /\
  drawnFeatures (clearLayerFeatures t st') = drawnFeatures st'.
Proof.
  cbv zeta.
  assert (Hne : forall g, layerType_differs t g = true <-> layerType g <> t).
  { intros g. unfold layerType_differs. destruct (layerType g), t; split;
      intros H; try reflexivity; try discriminate; try congruence. }
  split; [|split; [|split; [|split; [|split; [|split; [|split]]]]]].
  - intros g. rewrite clearLayerFeatures_features, list_elem_of_filter, Hne. tauto.
  - rewrite clearLayerFeatures_features. apply sublist_filter.
  - destruct t; reflexivity.
  - intros u Hu. destruct t, u; try contradiction; reflexivity.
  - destruct t; reflexivity.
  - destruct t; reflexivity.
  - destruct t; cbn; [reflexivity|]. rewrite app_nil_r. reflexivity.
  - rewrite !clearLayerFeatures_features. apply filter_keeps_all.
    intros g Hg. apply list_elem_of_filter in Hg as [Hg _]. exact Hg.
Qed.

(** X9.  "Clear All" empties the whole registry, the entries of the record
    layer included, but clears only the work-area group: the record group
    keeps its members, and those that are not in the work-area group as
    well stay on the map.  Once the clearing has been rendered, the handler
    holds the empty registry, and whatever is drawn next is registered,
    also a shape identical to one still shown. *)
Theorem clearAllDrawnFeatures_spec (Math_sin : float -> float) (st : MapState) :
  let st' := clearAllDrawnFeatures st in
  drawnFeatures st' = [] /\
  selectedFeatureId st' = None /\
  workAreaLayer st' = ∅ /\
  recordLayer st' = recordLayer st /\
  (forall l, l ∈ recordLayer st -> l ∈ onMap st -> l ∉ workAreaLayer st ->
             l ∈ onMap st') /\
  polygonChanges st' = polygonChanges st ++ [([], None)] /\
  (forall i l o, layerObjects st !! l = Some o -> drawable o = true ->
                 length (drawnFeatures
                           (handleCreate Math_sin (render st') i (event_for l) st'))
                 = 1%nat).
Proof.
  cbv zeta. repeat (split; [reflexivity|]). split; [|split; [reflexivity|]].
  - intros l _ Hon Hnot. cbn. apply elem_of_difference. split; assumption.
  - intros i l o Hobj Hdraw.
    rewrite (handleCreate_accepted Math_sin (render (clearAllDrawnFeatures st)) i l o
               (clearAllDrawnFeatures st) Hobj Hdraw eq_refl).
    cbv zeta. destruct (instanceof o CPolygon); [|reflexivity].
    destruct (layerType _); reflexivity.
Qed.

(** X10.  Removal, both ways of clearing, and creation by a handler that
    holds every feature of the current registry, as the handler of the
    current render does, keep the registry free of duplicates: if no entry
    compares equal to an earlier one before the event, none does after it.
    The edit event does not: it can leave two entries with coordinates
    that compare equal.  Nor does a creation event that reaches a handler
    subscribed before the last registration. *)
Theorem registry_stays_duplicate_free (Math_sin : float -> float) (st : MapState) :
  duplicate_free (drawnFeatures st) ->
  (forall c i e, (forall f, f ∈ drawnFeatures st -> f ∈ closure_drawnFeatures c) ->
                 duplicate_free (drawnFeatures (handleCreate Math_sin c i e st))) /\
  (forall i e, duplicate_free (drawnFeatures (handleCreate Math_sin (render st) i e st))) /\
  (forall e, duplicate_free (drawnFeatures (handleRemove e st))) /\
  (forall t, duplicate_free (drawnFeatures (clearLayerFeatures t st))) /\
  duplicate_free (drawnFeatures (clearAllDrawnFeatures st)) /\
  (duplicate_free (drawnFeatures second_dragged) /\
   ~ duplicate_free (drawnFeatures (handleEdit sin_ref (event_for 2%nat) second_dragged))) /\
  (duplicate_free (drawnFeatures first_unrendered) /\
   ~ duplicate_free (drawnFeatures second_unrendered)).
Proof.
  intros Hfree.
  split; [intros c i e Hseen; apply handleCreate_duplicate_free; assumption|].
  split; [intros i e; apply handleCreate_duplicate_free; [intros f Hf; exact Hf|exact Hfree]|].
  split; [intros e; apply handleRemove_duplicate_free, Hfree|].
  split; [intros t; rewrite clearLayerFeatures_features;
          apply duplicate_free_filter, Hfree|].
  split; [exact I|].
  split; split.
  - cbn. split; [|split; [|exact I]].
    + intros g Hg. apply list_elem_of_singleton in Hg as ->. vm_compute. reflexivity.
    + intros g Hg. inversion Hg.
  - intros [Hfirst _].
    specialize (Hfirst (mkFeature "feature-2" polygon (Some (calculateArea sin_ref triangle))
                          triangle 2%nat workArea)).
    assert (Hin : mkFeature "feature-2" polygon (Some (calculateArea sin_ref triangle))
                    triangle 2%nat workArea
                  ∈ [mkFeature "feature-2" polygon (Some (calculateArea sin_ref triangle))
                       triangle 2%nat workArea]) by left.
    specialize (Hfirst Hin). vm_compute in Hfirst. discriminate Hfirst.
  - cbn. split; [|exact I]. intros g Hg. inversion Hg.
  - intros [Hfirst _].
    specialize (Hfirst (mkFeature "feature-2" polygon (Some (calculateArea sin_ref triangle))
                          triangle 2%nat workArea)).
    assert (Hin : mkFeature "feature-2" polygon (Some (calculateArea sin_ref triangle))
                    triangle 2%nat workArea
                  ∈ [mkFeature "feature-2" polygon (Some (calculateArea sin_ref triangle))
                       triangle 2%nat workArea]) by left.
    specialize (Hfirst Hin). vm_compute in Hfirst. discriminate Hfirst.
Qed.

Lemma registry_stays_duplicate_free_witness :
  duplicate_free (drawnFeatures one_polygon) /\
  duplicate_free
    (drawnFeatures
       (handleCreate sin_ref (render second_drawn) "feature-2" (event_for 2%nat)
          second_drawn)) /\
  duplicate_free (drawnFeatures two_polygons).
Proof.
  assert (Hone : duplicate_free (drawnFeatures one_polygon)).
  { cbn. split; [|exact I]. intros g Hg. inversion Hg. }
  split; [exact Hone|]. split.
  - apply (proj1 (proj2 (registry_stays_duplicate_free sin_ref second_drawn Hone))).
  - apply (proj1 (registry_stays_duplicate_free sin_ref
                    (plugin_draw 2%nat (LPolygon triangle_moved []) one_polygon) Hone)
             (render one_polygon)).
    intros f Hf. exact Hf.
Defined.

(** ** Registry: edits of lines and markers *)

(** X11.  The edit event for a line replaces the coordinates of the entry
    on that layer by the line's vertices and leaves its area, id, kind and
    owning layer as they were; for a marker the coordinates become its one
    position.  An entry whose layer is of no handled class is left as it
    is, and so is the whole registry when no entry is on the edited
    layer. *)
Theorem handleEdit_lines_and_markers (Math_sin : float -> float) (st : MapState)
    (n : nat) (f : DrawnFeature) (o : LayerObject) :
  drawnFeatures st !! n = Some f ->
  layerObjects st !! layer f = Some o ->
  let st' := handleEdit Math_sin (event_for (layer f)) st in
  (forall latlngs, o = LPolyline latlngs ->
                   drawnFeatures st' !! n = Some (with_coordinates f latlngs)) /\
  (forall latlng, o = LMarker latlng ->
                  drawnFeatures st' !! n = Some (with_coordinates f [latlng])) /\
  (o = LOther -> drawnFeatures st' !! n = Some f) /\
  (forall l, (forall g, g ∈ drawnFeatures st -> layer g <> l) ->
             drawnFeatures (handleEdit Math_sin (event_for l) st) = drawnFeatures st).
Proof.
  intros Hf Hobj st'. subst st'.
  unfold handleEdit, event_for. cbn [ev_layer setDrawnFeatures drawnFeatures].
  assert (Hn : map (edit_feature Math_sin (layerObjects st) (layer f)) (drawnFeatures st) !! n
               = Some (edit_feature Math_sin (layerObjects st) (layer f) f)).
  { rewrite list_lookup_fmap, Hf. reflexivity. }
  rewrite Hn. unfold edit_feature at 1 2 3. rewrite Nat.eqb_refl, Hobj.
  cbn [from_option Datatypes.id].
  split; [|split; [|split]].
  - intros latlngs ->. cbn [instanceof orb getLatLngs]. rewrite plain_coordinates_id.
    reflexivity.
  - intros latlng ->. cbn [instanceof orb getLatLng_array]. rewrite plain_coordinates_id.
    reflexivity.
  - intros ->. reflexivity.
  - intros l Hother. rewrite <- (map_id (drawnFeatures st)) at 2.
    apply map_ext_in. intros g Hg.
    apply edit_feature_other, Hother, list_elem_of_In, Hg.
Qed.

Lemma handleEdit_lines_and_markers_witness :
  map coordinates (drawnFeatures line_moved) = [triangle; sample_line] /\
  drawnFeatures (handleEdit sin_ref (event_for 2%nat) line_moved) !! 1%nat
  = Some (mkFeature "feature-2" polyline None sample_line_moved 2%nat record).
Proof.
  split; [reflexivity|].
  apply (handleEdit_lines_and_markers sin_ref line_moved 1%nat
           (mkFeature "feature-2" polyline None sample_line 2%nat record)
           (LPolyline sample_line_moved)).
  - reflexivity.
  - reflexivity.
  - reflexivity.
Defined.

(** ** Registry: what holds in every state *)

(** X12.  In every state that the component can reach from mount by
    drawing, vertex edits and its own handlers, each registered entry has
    its layer object, has an area exactly when its kind is [polygon], has
    exactly one coordinate when it is a marker, and can be exported:
    [copyFeatureGeoJSON] does not throw on it. *)
Theorem reachable_registry_well_formed (Math_sin : float -> float) (st : MapState)
    (f : DrawnFeature) :
  reachable Math_sin st ->
  f ∈ drawnFeatures st ->
  is_Some (layerObjects st !! layer f) /\
  (is_Some (area f) <-> type f = polygon) /\
  (type f = marker -> length (coordinates f) = 1%nat) /\
  is_Some (copyFeatureGeoJSON f).
Proof.
  intros Hreach Hf.
  pose proof (reachable_consistent Math_sin st Hreach f Hf) as Hc.
  unfold feature_consistent in Hc.
  destruct (layerObjects st !! layer f) as [o|]; [|contradiction].
  split; [eauto|].
  unfold copyFeatureGeoJSON.
  destruct (type f).
  - destruct Hc as [_ Harea]. repeat split; eauto; discriminate.
  - destruct Hc as [_ Harea]. rewrite Harea.
    split; [split; [intros [x Hx]|intros Hx]; discriminate|].
    split; [discriminate|eauto].
  - destruct Hc as [_ [Harea Hlen]]. rewrite Harea.
    split; [split; [intros [x Hx]|intros Hx]; discriminate|].
    split; [intros _; exact Hlen|].
    destruct (coordinates f) as [|c rest]; [discriminate Hlen|]. cbn. eauto.
  - contradiction.
Qed.

Lemma reachable_registry_well_formed_witness :
  reachable sin_ref polygon_and_line /\
  Forall (fun f => is_Some (copyFeatureGeoJSON f)) (drawnFeatures polygon_and_line).
Proof.
  assert (Hreach : reachable sin_ref polygon_and_line).
  { exists (render line_drawn).
    unfold polygon_and_line.
    eapply rtc_r; [|apply step_create].
    unfold line_drawn at 1.
    eapply rtc_r; [|apply step_draw; reflexivity].
    eapply rtc_r;
      [|apply (step_render sin_ref (setDrawMode (Some drawRecord) one_polygon)
                 (render work_area_mode))].
    eapply rtc_r; [|apply step_mode].
    unfold one_polygon at 1.
    eapply rtc_r; [|apply step_create].
    eapply rtc_r; [|apply step_draw; reflexivity].
    eapply rtc_r;
      [|apply (step_render sin_ref work_area_mode (render initial_state))].
    eapply rtc_r; [|apply step_mode].
    apply rtc_refl. }
  split; [exact Hreach|].
  apply Forall_forall. intros f Hf.
  apply (reachable_registry_well_formed sin_ref polygon_and_line f Hreach).
  exact Hf.
Defined.

(** ** Area of a ring that repeats its first point *)

(** X13.  A ring of at least three points that is closed explicitly, its
    first point repeated at the end, has the same area as the ring without
    the repeated point, on binary64 numbers as the code runs: the pair
    that the repeated point adds contributes a zero.  This needs the first
    point's longitude in radians and its weight
    [2 + sin(lat) + sin(lat)] to be finite numbers. *)
Theorem calculateArea_closed_ring (Math_sin : float -> float) (x : LatLng float)
    (xs : list (LatLng float)) :
  (3 <= length (x :: xs))%nat ->
  PrimFloat.is_finite (toRad (lng x)) = true ->
  PrimFloat.is_finite (2 + Math_sin (toRad (lat x)) + Math_sin (toRad (lat x)))%float
  = true ->
  calculateArea Math_sin (x :: xs ++ [x]) = calculateArea Math_sin (x :: xs).
Proof. apply calculateArea_float_closed. Qed.

Lemma calculateArea_closed_ring_witness :
  calculateArea sin_ref (triangle ++ [pt 43.7 (-79.4)]) = calculateArea sin_ref triangle.
Proof.
  apply (calculateArea_closed_ring sin_ref (pt 43.7 (-79.4))
           [pt 43.71 (-79.4); pt 43.71 (-79.39)]).
  - cbn. lia.
  - vm_compute. reflexivity.
  - vm_compute. reflexivity.
Defined.

(** ** Georeferencing capture *)

(** X14.  In line or polygon mode, with no capture in progress, clicking
    two or more points and then double-clicking reports once, with the
    kind of the mode and exactly the clicked points in the order of the
    clicks.  During the capture every click replaces the layer in
    progress, so the group gains one layer in all, made from all the
    points; it stays in the group after the report.  Afterwards nothing
    is in progress, so the next capture starts from no points. *)
Theorem georef_capture_reports_clicks (mode : GeorefMode) (st : GeorefState)
    (ps : list (LatLng float)) :
  mode <> georefPoint ->
  currentLayer st = None -> points st = [] ->
  (forall r, nextStamp st <= r -> georefLayer st !! r = None)%nat ->
  (2 <= length ps)%nat ->
  let st' := georef_run mode (map GeorefClick ps ++ [GeorefDblClick]) st in
  georefCompleted st' = georefCompleted st ++ [GeorefPathResult mode ps] /\
  georefLayer st'
  = <[ (nextStamp st + length ps - 1)%nat := georef_shape mode ps ]> (georefLayer st) /\
  currentLayer st' = None /\ points st' = [] /\
  (forall r, nextStamp st' <= r -> georefLayer st' !! r = None)%nat.
Proof.
  intros Hmode Hcur Hpts Hfresh Hlen st'. subst st'.
  destruct (exists_last (l := ps)) as [qs [p ->]].
  { intros ->. cbn in Hlen. lia. }
  rewrite length_app in *. cbn [length] in *.
  rewrite georef_run_app, (georef_clicks mode qs p st Hmode Hcur Hpts Hfresh).
  unfold georef_run. cbn [fold_left georef_handle].
  unfold georef_handleDblClick. cbn [points].
  destruct (Nat.ltb_spec 1 (length (qs ++ [p]))) as [_|Hshort];
    [|rewrite length_app in Hshort; cbn [length] in Hshort; lia].
  replace (nextStamp st + (length qs + 1) - 1)%nat with (nextStamp st + length qs)%nat
    by lia.
  rewrite plain_coordinates_id.
  destruct mode; [contradiction| |];
    (cbn [georefCompleted georefLayer currentLayer points nextStamp];
     repeat (split; [reflexivity|]);
     intros r Hr; rewrite lookup_insert_ne by lia; apply Hfresh; lia).
Qed.

Lemma georef_capture_reports_clicks_witness :
  georefCompleted
    (georef_run georefPolygon (map GeorefClick three_clicks ++ [GeorefDblClick])
       georef_idle)
  = [GeorefPathResult georefPolygon three_clicks].
Proof.
  apply (georef_capture_reports_clicks georefPolygon georef_idle three_clicks).
  - discriminate.
  - reflexivity.
  - reflexivity.
  - intros r _. apply lookup_empty.
  - cbn. lia.
Defined.

(** X15.  A double click before two points have been clicked is ignored:
    nothing is reported and the capture goes on with the points it has.
    In point mode every double click is ignored, and every click reports
    its point at once and leaves one more marker in the group, so a run of
    events reports the clicked points one by one, in order. *)
Theorem georef_short_and_point_captures (st : GeorefState) :
  (forall mode, (length (points st) <= 1)%nat ->
                georef_handleDblClick mode st = st) /\
  (forall evs,
      georefCompleted (georef_run georefPoint evs st)
      = georefCompleted st ++ map GeorefPointResult (clicked evs) /\
      nextStamp (georef_run georefPoint evs st)
      = (nextStamp st + length (clicked evs))%nat /\
      points (georef_run georefPoint evs st) = points st /\
      forall k latlng, clicked evs !! k = Some latlng ->
        georefLayer (georef_run georefPoint evs st) !! (nextStamp st + k)%nat
        = Some (GeorefMarker latlng)).
Proof.
  split.
  - intros mode Hshort. unfold georef_handleDblClick.
    destruct (Nat.ltb_spec 1 (length (points st))) as [Hlong|_]; [lia|].
    destruct mode; reflexivity.
  - intros evs. induction evs as [|ev evs IH] using rev_ind.
    + cbn. rewrite app_nil_r, Nat.add_0_r.
      repeat (split; [reflexivity|]). intros k latlng Hk. discriminate Hk.
    + rewrite georef_run_snoc.
      destruct IH as [Hdone [Hstamp [Hpts Hgroup]]].
      assert (Hclicked : forall l e, clicked (l ++ [e])
                = clicked l ++ match e with GeorefClick p => [p] | GeorefDblClick => [] end).
      { clear. intros l e. induction l as [|[q|] l IHl]; cbn [app clicked].
        - destruct e; reflexivity.
        - rewrite IHl. reflexivity.
        - exact IHl. }
      rewrite Hclicked. destruct ev as [p|]; cbn [georef_handle].
      * unfold georef_handleClick.
        cbn [georefCompleted nextStamp points georefLayer].
        rewrite Hdone, Hstamp, Hpts, map_app, length_app. cbn [map length].
        destruct p as [a b]. cbn [lat lng].
        split; [rewrite <- app_assoc; reflexivity|].
        split; [lia|]. split; [reflexivity|].
        intros k latlng Hk.
        destruct (Nat.eq_dec k (length (clicked evs))) as [->|Hne].
        -- rewrite lookup_insert_eq.
           rewrite list_lookup_middle in Hk by reflexivity. congruence.
        -- rewrite lookup_insert_ne by lia. apply Hgroup.
           rewrite lookup_app_l in Hk; [exact Hk|].
           apply lookup_lt_Some in Hk. rewrite length_app in Hk. cbn in Hk. lia.
      * cbn [georef_handleDblClick]. rewrite app_nil_r.
        repeat (split; [assumption|]). exact Hgroup.
Qed.
